(** * Bridge and interface command clients (core/nodes/netclient.py)

    A shallow embedding of [LinuxNetClient] and [OvsNetClient]: every method
    is a computation that hands command strings to the injected [run]
    callable, and the properties below are about the commands that reach
    that callable, in which order, and what the method returns or raises. *)

From stdpp Require Import base strings list gmap pretty.
From Stdlib Require Import ZArith Ascii String.

Local Open Scope string_scope.
Local Open Scope list_scope.
Local Open Scope nat_scope.
Local Set Warnings "-register-all".

(** ** Python values and exceptions *)

(** The exceptions the module can propagate: whatever [run] raises, the
    lookups [fields[1]] and [bridge["ifname"]], and the type errors of
    iterating or subscripting a decoded JSON value. *)
Inductive exn : Type :=
  | CommandError (status : Z) (stderr : string)
  | JSONDecodeError
  | IndexError
  | KeyError (key : string)
  | TypeError
  | AttributeError.

(** What [json.loads] hands back. *)
Inductive json : Type :=
  | JNull
  | JBool (b : bool)
  | JInt (n : Z)
  | JFloat (digits : string)
  | JStr (s : string)
  | JList (items : list json)
  | JDict (members : gmap string json).

Definition result (A : Type) : Type := exn + A.

(** ** [str.split] with a one-character separator *)

Fixpoint split (sep : ascii) (s : string) : list string :=
  match s with
  | EmptyString => [EmptyString]
  | String c rest =>
      if Ascii.eqb c sep then EmptyString :: split sep rest
      else match split sep rest with
           | field :: fields => String c field :: fields
           | [] => [String c EmptyString]
           end
  end.

Definition dot : ascii := "."%char.
Definition newline : ascii := "010"%char.
Definition space : ascii := " "%char.

(** ** The command runner and the computations that call it *)

(** One call [run(args)] or [run(args, shell=True)]. *)
Record command : Type := Command { cmd_args : string; cmd_shell : bool }.

(** The injected [run] callable. It receives the calls made to it so far
    and the current call, and either returns the command's output or raises:
    its answer may depend on everything issued before. *)
Definition runner : Type := list command → command → result string.

(** A method body: it extends the log of issued calls and returns a value
    or propagates an exception. The log records every call made to [run],
    also the one that raised. *)
Definition M (A : Type) : Type := list command → list command * result A.

Definition ret {A} (a : A) : M A := λ log, (log, inr a).

Definition raise {A} (e : exn) : M A := λ log, (log, inl e).

Definition bind {A B} (m : M A) (k : A → M B) : M B :=
  λ log, match m log with
         | (log', inr a) => k a log'
         | (log', inl e) => (log', inl e)
         end.

Definition lift {A} (x : result A) : M A := λ log, (log, x).

Definition call (run : runner) (args : string) (shell : bool) : M string :=
  λ log, let c := Command args shell in (log ++ [c], run log c).

#[global] Instance M_ret : MRet M := @ret.
#[global] Instance M_bind : MBind M := λ A B k m, bind m k.

#[global] Instance result_ret : MRet result := λ A a, inr a.
#[global] Instance result_bind : MBind result :=
  λ A B k x, match x with inl e => inl e | inr a => k a end.

(** ** The Python operations the two listing parsers use *)

(** [fields[i]]. *)
Definition index (fields : list string) (i : nat) : result string :=
  match fields !! i with
  | Some field => inr field
  | None => inl IndexError
  end.

(** [for bridge in bridges]: the elements of a list, the keys of a dict, the
    characters of a string; anything else is not iterable. *)
Definition characters (s : string) : list string :=
  (λ c, String c EmptyString) <$> list_ascii_of_string s.

Definition iter (v : json) : result (list json) :=
  match v with
  | JList items => inr items
  | JDict members => inr (JStr <$> (map_to_list members).*1)
  | JStr s => inr (JStr <$> characters s)
  | JNull | JBool _ | JInt _ | JFloat _ => inl TypeError
  end.

(** [bridge[key]] with a string key. *)
Definition getitem (v : json) (key : string) : result json :=
  match v with
  | JDict members =>
      match members !! key with
      | Some item => inr item
      | None => inl (KeyError key)
      end
  | JList _ | JStr _ | JNull | JBool _ | JInt _ | JFloat _ => inl TypeError
  end.

(** [name.split(".")]: only a string has the method. *)
Definition split_dots (name : json) : result (list string) :=
  match name with
  | JStr s => inr (split dot s)
  | JNull | JBool _ | JInt _ | JFloat _ | JList _ | JDict _ => inl AttributeError
  end.

(** The loop of [LinuxNetClient.existing_bridges] over the decoded listing. *)
Fixpoint linux_scan (_id : string) (bridges : list json) : result bool :=
  match bridges with
  | [] => inr false
  | bridge :: rest =>
      name ← getitem bridge "ifname";
      fields ← split_dots name;
      if negb (Nat.eqb (List.length fields) 3) then linux_scan _id rest
      else
        f0 ← index fields 0;
        if String.eqb f0 "b" then
          f1 ← index fields 1;
          if String.eqb f1 _id then inr true else linux_scan _id rest
        else linux_scan _id rest
  end.

(** The loop of [OvsNetClient.existing_bridges] over the lines of the
    listing. [fields[1]] is only evaluated when [fields[0] == "b"] holds. *)
Fixpoint ovs_scan (_id : string) (lines : list string) : result bool :=
  match lines with
  | [] => inr false
  | line :: rest =>
      let fields := split dot line in
      f0 ← index fields 0;
      if String.eqb f0 "b" then
        f1 ← index fields 1;
        if String.eqb f1 _id then inr true else ovs_scan _id rest
      else ovs_scan _id rest
  end.

(** ** The client objects *)

(** What the module imports and does not define: the binary paths of
    [core.constants] and the decoder [json.loads]. The development is
    parametric in them. *)
Class Imports : Type := {
  IP_BIN : string;
  OVS_BIN : string;
  TC_BIN : string;
  ETHTOOL_BIN : string;
  json_loads : string → result json
}.

(** The method table of a client object. Methods without a return statement
    return [None], rendered as [()]. Optional arguments are [None] or a
    value; [ttl] and [key] are integers. *)
Record NetClient : Type := {
  set_hostname : string → M unit;
  create_route : string → string → M unit;
  device_up : string → M unit;
  device_down : string → M unit;
  device_name : string → string → M unit;
  device_show : string → M string;
  get_mac : string → M string;
  get_ifindex : string → M string;
  device_ns : string → string → M unit;
  device_flush : string → M unit;
  device_mac : string → string → M unit;
  delete_device : string → M unit;
  delete_tc : string → M unit;
  checksums_off : string → M unit;
  create_address : string → string → option string → M unit;
  delete_address : string → string → M unit;
  create_veth : string → string → M unit;
  create_gretap :
    string → string → option string → option Z → option Z → M unit;
  create_bridge : string → M unit;
  delete_bridge : string → M unit;
  create_interface : string → string → M unit;
  delete_interface : string → string → M unit;
  existing_bridges : string → M bool;
  disable_mac_learning : string → M unit
}.

Section Clients.
Context `{Imports}.

(** [class LinuxNetClient]. A class maps the object a method is invoked on
    ([self]) to the method table, so that [self.device_up(name)] is looked
    up in the object and not fixed to this class's definition. *)
Definition LinuxNetClient (run : runner) (self : NetClient) : NetClient := {|
  set_hostname name :=
    call run ("hostname " +:+ name) false;; mret ();
  create_route route device :=
    call run (IP_BIN +:+ " route add " +:+ route +:+ " dev " +:+ device) false;;
    mret ();
  device_up device :=
    call run (IP_BIN +:+ " link set " +:+ device +:+ " up") false;; mret ();
  device_down device :=
    call run (IP_BIN +:+ " link set " +:+ device +:+ " down") false;; mret ();
  device_name device name :=
    call run (IP_BIN +:+ " link set " +:+ device +:+ " name " +:+ name) false;;
    mret ();
  device_show device :=
    call run (IP_BIN +:+ " link show " +:+ device) false;
  get_mac device :=
    call run ("cat /sys/class/net/" +:+ device +:+ "/address") false;
  get_ifindex device :=
    call run ("cat /sys/class/net/" +:+ device +:+ "/ifindex") false;
  device_ns device namespace :=
    call run
      (IP_BIN +:+ " link set " +:+ device +:+ " netns " +:+ namespace) false;;
    mret ();
  device_flush device :=
    call run
      ("[ -e /sys/class/net/" +:+ device +:+ " ] && " +:+ IP_BIN
         +:+ " -6 address flush dev " +:+ device +:+ " || true")
      true;;
    mret ();
  device_mac device mac :=
    call run
      (IP_BIN +:+ " link set dev " +:+ device +:+ " address " +:+ mac) false;;
    mret ();
  delete_device device :=
    call run (IP_BIN +:+ " link delete " +:+ device) false;; mret ();
  delete_tc device :=
    call run (TC_BIN +:+ " qdisc delete dev " +:+ device +:+ " root") false;;
    mret ();
  checksums_off interface_name :=
    call run (ETHTOOL_BIN +:+ " -K " +:+ interface_name +:+ " rx off tx off")
      false;;
    mret ();
  create_address device address broadcast :=
    match broadcast with
    | Some broadcast =>
        call run
          (IP_BIN +:+ " address add " +:+ address +:+ " broadcast "
             +:+ broadcast +:+ " dev " +:+ device) false;;
        mret ()
    | None =>
        call run
          (IP_BIN +:+ " address add " +:+ address +:+ " dev " +:+ device)
          false;;
        mret ()
    end;
  delete_address device address :=
    call run
      (IP_BIN +:+ " address delete " +:+ address +:+ " dev " +:+ device) false;;
    mret ();
  create_veth name peer :=
    call run
      (IP_BIN +:+ " link add name " +:+ name +:+ " type veth peer name "
         +:+ peer) false;;
    mret ();
  create_gretap device address local ttl key :=
    let cmd :=
      IP_BIN +:+ " link add " +:+ device +:+ " type gretap remote "
        +:+ address in
    let cmd :=
      match local with
      | Some local => cmd +:+ " local " +:+ local
      | None => cmd
      end in
    let cmd :=
      match ttl with
      | Some ttl => cmd +:+ " ttl " +:+ pretty ttl
      | None => cmd
      end in
    let cmd :=
      match key with
      | Some key => cmd +:+ " key " +:+ pretty key
      | None => cmd
      end in
    call run cmd false;; mret ();
  create_bridge name :=
    call run (IP_BIN +:+ " link add name " +:+ name +:+ " type bridge") false;;
    call run
      (IP_BIN +:+ " link set " +:+ name +:+ " type bridge stp_state 0") false;;
    call run
      (IP_BIN +:+ " link set " +:+ name +:+ " type bridge forward_delay 0")
      false;;
    call run
      (IP_BIN +:+ " link set " +:+ name +:+ " type bridge mcast_snooping 0")
      false;;
    device_up self name;;
    mret ();
  delete_bridge name :=
    device_down self name;;
    call run (IP_BIN +:+ " link delete " +:+ name +:+ " type bridge") false;;
    mret ();
  create_interface bridge_name interface_name :=
    call run
      (IP_BIN +:+ " link set dev " +:+ interface_name +:+ " master "
         +:+ bridge_name) false;;
    device_up self interface_name;;
    mret ();
  delete_interface bridge_name interface_name :=
    call run (IP_BIN +:+ " link set dev " +:+ interface_name +:+ " nomaster")
      false;;
    mret ();
  existing_bridges _id :=
    output ← call run (IP_BIN +:+ " -j link show type bridge") false;
    bridges ← lift (json_loads output);
    lift (iter bridges ≫= linux_scan _id);
  disable_mac_learning name :=
    call run
      (IP_BIN +:+ " link set " +:+ name +:+ " type bridge ageing_time 0")
      false;;
    mret ()
|}.

(** [class OvsNetClient(LinuxNetClient)]: six methods are overridden, the
    rest is inherited. *)
Definition OvsNetClient (run : runner) (self : NetClient) : NetClient :=
  let super := LinuxNetClient run self in {|
  set_hostname := set_hostname super;
  create_route := create_route super;
  device_up := device_up super;
  device_down := device_down super;
  device_name := device_name super;
  device_show := device_show super;
  get_mac := get_mac super;
  get_ifindex := get_ifindex super;
  device_ns := device_ns super;
  device_flush := device_flush super;
  device_mac := device_mac super;
  delete_device := delete_device super;
  delete_tc := delete_tc super;
  checksums_off := checksums_off super;
  create_address := create_address super;
  delete_address := delete_address super;
  create_veth := create_veth super;
  create_gretap := create_gretap super;
  create_bridge name :=
    call run (OVS_BIN +:+ " add-br " +:+ name) false;;
    call run (OVS_BIN +:+ " set bridge " +:+ name +:+ " stp_enable=false")
      false;;
    call run
      (OVS_BIN +:+ " set bridge " +:+ name +:+ " other_config:stp-max-age=6")
      false;;
    call run
      (OVS_BIN +:+ " set bridge " +:+ name
         +:+ " other_config:stp-forward-delay=4") false;;
    device_up self name;;
    mret ();
  delete_bridge name :=
    device_down self name;;
    call run (OVS_BIN +:+ " del-br " +:+ name) false;;
    mret ();
  create_interface bridge_name interface_name :=
    call run
      (OVS_BIN +:+ " add-port " +:+ bridge_name +:+ " " +:+ interface_name)
      false;;
    device_up self interface_name;;
    mret ();
  delete_interface bridge_name interface_name :=
    call run
      (OVS_BIN +:+ " del-port " +:+ bridge_name +:+ " " +:+ interface_name)
      false;;
    mret ();
  existing_bridges _id :=
    output ← call run (OVS_BIN +:+ " list-br") false;
    if negb (String.eqb output "") then
      lift (ovs_scan _id (split newline output))
    else mret false;
  disable_mac_learning name :=
    call run
      (OVS_BIN +:+ " set bridge " +:+ name
         +:+ " other_config:mac-aging-time=0") false;;
    mret ()
|}.

(** An object without methods: every lookup fails. *)
Definition no_methods : NetClient := {|
  set_hostname _ := raise AttributeError;
  create_route _ _ := raise AttributeError;
  device_up _ := raise AttributeError;
  device_down _ := raise AttributeError;
  device_name _ _ := raise AttributeError;
  device_show _ := raise AttributeError;
  get_mac _ := raise AttributeError;
  get_ifindex _ := raise AttributeError;
  device_ns _ _ := raise AttributeError;
  device_flush _ := raise AttributeError;
  device_mac _ _ := raise AttributeError;
  delete_device _ := raise AttributeError;
  delete_tc _ := raise AttributeError;
  checksums_off _ := raise AttributeError;
  create_address _ _ _ := raise AttributeError;
  delete_address _ _ := raise AttributeError;
  create_veth _ _ := raise AttributeError;
  create_gretap _ _ _ _ _ := raise AttributeError;
  create_bridge _ := raise AttributeError;
  delete_bridge _ := raise AttributeError;
  create_interface _ _ := raise AttributeError;
  delete_interface _ _ := raise AttributeError;
  existing_bridges _ := raise AttributeError;
  disable_mac_learning _ := raise AttributeError
|}.

(** Instantiating a class ties [self] to the object itself. The methods
    reach other methods through [self] to depth one ([create_bridge] calls
    [self.device_up], which calls only [run]), so two unfoldings of the
    class give the object; [new_is_self] below checks it. *)
Fixpoint unfold_class (depth : nat) (cls : NetClient → NetClient) : NetClient :=
  match depth with
  | O => no_methods
  | S depth => cls (unfold_class depth cls)
  end.

Definition new (cls : NetClient → NetClient) : NetClient := unfold_class 2 cls.

Definition get_net_client (use_ovs : bool) (run : runner) : NetClient :=
  if use_ovs then new (OvsNetClient run) else new (LinuxNetClient run).

End Clients.

(** ** The shell, as far as [device_flush] needs it *)

(** Modelled from the spec: the command executor and the shell it starts
    for [shell=True] are not part of the module. The spec has the executor
    return the output on success and fail with the exit code otherwise, and
    [device_flush] rely on a shell conditional. The model reads a command
    line the way [sh -c] does, on a fragment: words of letters, digits and
    [/ . _ -], the words [[] and []], the operators [&&] and [||], and an
    opening parenthesis. Any other character puts the line outside the
    model. *)
Inductive sh_token : Type :=
  | TWord (w : string)
  | TAndIf
  | TOrIf
  | TLParen
  | TOther.

Definition is_blank (c : ascii) : bool :=
  Ascii.eqb c " " || Ascii.eqb c "009".

Definition plain_char (c : ascii) : bool :=
  let n := nat_of_ascii c in
  (48 <=? n) && (n <=? 57) || (65 <=? n) && (n <=? 90)
  || (97 <=? n) && (n <=? 122)
  || Ascii.eqb c "/" || Ascii.eqb c "." || Ascii.eqb c "_" || Ascii.eqb c "-".

Definition bracket (c : ascii) : bool := Ascii.eqb c "[" || Ascii.eqb c "]".

Definition plain (w : string) : bool :=
  forallb plain_char (list_ascii_of_string w).

Definition has_slash (w : string) : bool :=
  existsb (Ascii.eqb "/") (list_ascii_of_string w).

(** Modelled from the spec: the token of a finished word. A word with a
    bracket that is not [[] or []] alone is a pattern, outside the model. *)
Definition word_token (w : string) : list sh_token :=
  if String.eqb w "" then []
  else if plain w || String.eqb w "[" || String.eqb w "]" then [TWord w]
  else [TOther].

(** Modelled from the spec: token recognition. Blanks end a word, [&&] and
    [||] are operators also without blanks around them, and reading stops
    at an opening parenthesis or at a character outside the model. *)
Fixpoint tokens_go (cur : string) (text : string) : list sh_token :=
  match text with
  | EmptyString => word_token cur
  | String c rest =>
      if is_blank c then word_token cur ++ tokens_go "" rest
      else if plain_char c || bracket c then
        tokens_go (cur +:+ String c "") rest
      else if Ascii.eqb c "(" then word_token cur ++ [TLParen]
      else if Ascii.eqb c "&" then
        match rest with
        | String d rest' =>
            if Ascii.eqb d "&" then word_token cur ++ TAndIf :: tokens_go "" rest'
            else word_token cur ++ [TOther]
        | EmptyString => word_token cur ++ [TOther]
        end
      else if Ascii.eqb c "|" then
        match rest with
        | String d rest' =>
            if Ascii.eqb d "|" then word_token cur ++ TOrIf :: tokens_go "" rest'
            else word_token cur ++ [TOther]
        | EmptyString => word_token cur ++ [TOther]
        end
      else word_token cur ++ [TOther]
  end.

(** Modelled from the spec: the simple commands of the fragment. A program
    is named by a path with a slash, so that no built-in, function or
    reserved word is meant. *)
Inductive simple : Type :=
  | Test (path : string)
  | True_
  | External (argv : list string).

Definition program (name : string) : bool := plain name && has_slash name.

Definition classify (words : list string) : option simple :=
  match words with
  | [] => None
  | name :: args =>
      if program name then
        if forallb plain args then Some (External words) else None
      else if String.eqb name "[" then
        match args with
        | [op; path; close] =>
            if String.eqb op "-e" && plain path && String.eqb close "]"
            then Some (Test path) else None
        | _ => None
        end
      else if String.eqb name "true" then
        match args with
        | [] => Some True_
        | _ :: _ => None
        end
      else None
  end.

Definition command_name (words : list string) : bool :=
  match words with
  | [] => false
  | name :: _ => program name || String.eqb name "[" || String.eqb name "true"
  end.

Inductive connector : Type := AndIf | OrIf.

Inductive parsed : Type :=
  | AndOr (first : simple) (rest : list (connector * simple))
  | SyntaxError
  | Unmodelled.

Definition chain (cur : list string) (op : connector) (tail : parsed)
  : parsed :=
  match classify cur, tail with
  | Some s, AndOr s' rest => AndOr s ((op, s') :: rest)
  | Some _, SyntaxError => SyntaxError
  | _, _ => Unmodelled
  end.

(** Modelled from the spec: an and-or list of simple commands. An opening
    parenthesis after two or more words of a command is a syntax error;
    every other line that is not such a list is outside the model. *)
Fixpoint parse_go (cur : list string) (ts : list sh_token) : parsed :=
  match ts with
  | [] =>
      match classify cur with
      | Some s => AndOr s []
      | None => Unmodelled
      end
  | TWord w :: ts => parse_go (cur ++ [w]) ts
  | TAndIf :: ts => chain cur AndIf (parse_go [] ts)
  | TOrIf :: ts => chain cur OrIf (parse_go [] ts)
  | TLParen :: _ =>
      if command_name cur && (2 <=? List.length cur) then SyntaxError
      else Unmodelled
  | TOther :: _ => Unmodelled
  end.

(** Modelled from the spec: the host as the shell sees it, which paths
    exist and with which status a program exits on its arguments. *)
Record host : Type := Host {
  path_exists : string → bool;
  exit_status : list string → Z
}.

Definition run_simple (h : host) (s : simple) : Z * list (list string) :=
  match s with
  | Test path => (if path_exists h path then 0%Z else 1%Z, [])
  | True_ => (0%Z, [])
  | External argv => (exit_status h argv, [argv])
  end.

(** Modelled from the spec: the list is run from left to right, [&&] runs
    the next command when the status so far is zero, [||] when it is
    not. *)
Fixpoint run_rest (h : host) (status : Z) (ran : list (list string))
    (rest : list (connector * simple)) : Z * list (list string) :=
  match rest with
  | [] => (status, ran)
  | (op, s) :: rest' =>
      let wanted :=
        match op with
        | AndIf => Z.eqb status 0
        | OrIf => negb (Z.eqb status 0)
        end in
      if wanted then
        let (status', ran') := run_simple h s in
        run_rest h status' (ran ++ ran') rest'
      else run_rest h status ran rest'
  end.

(** What [sh -c text] does on host [h]: the exit status and the programs
    it ran, a syntax error, or a line the model does not cover. *)
Inductive sh_outcome : Type :=
  | Exit (status : Z) (ran : list (list string))
  | SyntaxFailure
  | OutsideModel.

Definition sh_run (h : host) (text : string) : sh_outcome :=
  match parse_go [] (tokens_go "" text) with
  | AndOr first rest =>
      let (status, ran) := run_simple h first in
      let (status', ran') := run_rest h status ran rest in
      Exit status' ran'
  | SyntaxError => SyntaxFailure
  | Unmodelled => OutsideModel
  end.




(** ** Vocabulary of the properties *)

(** Every command of [cmds] succeeds when the commands are issued in this
    order after [log]. *)
Fixpoint accepts (run : runner) (log : list command) (cmds : list command)
  : bool :=
  match cmds with
  | [] => true
  | c :: rest =>
      match run log c with
      | inr _ => accepts run (log ++ [c]) rest
      | inl _ => false
      end
  end.

(** A command list issued in order, stopping at the first that raises. *)
Fixpoint in_order (run : runner) (cmds : list command) : M unit :=
  match cmds with
  | [] => mret ()
  | c :: rest => call run (cmd_args c) (cmd_shell c);; in_order run rest
  end.

(** The operations that issue more than one command. *)
Inductive operation : Type :=
  | CreateBridge (name : string)
  | DeleteBridge (name : string)
  | CreateInterface (bridge_name interface_name : string).

Definition perform (client : NetClient) (op : operation) : M unit :=
  match op with
  | CreateBridge name => create_bridge client name
  | DeleteBridge name => delete_bridge client name
  | CreateInterface bridge_name interface_name =>
      create_interface client bridge_name interface_name
  end.

(** A bridge name collides with a node id when it has exactly the three
    dot-separated fields [b], the id, and a third one. *)
Definition collides (_id : string) (name : string) : Prop :=
  ∃ sequence, split dot name = ["b"; _id; sequence].

(** A listing the kernel-bridge query can parse: a list of objects that
    each expose a string under [ifname]. *)
Definition ifname_of (bridge : json) (name : string) : Prop :=
  ∃ members, bridge = JDict members ∧ members !! "ifname" = Some (JStr name).

Definition parseable (bridges : json) (names : list string) : Prop :=
  ∃ items, bridges = JList items ∧ Forall2 ifname_of items names.

(** An optional command modifier: the keyword and value when the argument
    is given, nothing when it is [None]. *)
Definition modifier (keyword : string) (value : option string) : string :=
  match value with
  | Some v => keyword +:+ v
  | None => ""
  end.

(** A string without a space, as one word of a command line. *)
Definition single_word (w : string) : Prop := split space w = [w].

Section Steps.
Context `{Imports}.

(** The command list of each multi-step operation, per backend. *)
Definition steps (use_ovs : bool) (op : operation) : list command :=
  match op, use_ovs with
  | CreateBridge name, false =>
      [ Command (IP_BIN +:+ " link add name " +:+ name +:+ " type bridge") false;
        Command (IP_BIN +:+ " link set " +:+ name +:+ " type bridge stp_state 0") false;
        Command (IP_BIN +:+ " link set " +:+ name +:+ " type bridge forward_delay 0") false;
        Command (IP_BIN +:+ " link set " +:+ name +:+ " type bridge mcast_snooping 0") false;
        Command (IP_BIN +:+ " link set " +:+ name +:+ " up") false ]
  | CreateBridge name, true =>
      [ Command (OVS_BIN +:+ " add-br " +:+ name) false;
        Command (OVS_BIN +:+ " set bridge " +:+ name +:+ " stp_enable=false") false;
        Command (OVS_BIN +:+ " set bridge " +:+ name +:+ " other_config:stp-max-age=6") false;
        Command (OVS_BIN +:+ " set bridge " +:+ name +:+ " other_config:stp-forward-delay=4") false;
        Command (IP_BIN +:+ " link set " +:+ name +:+ " up") false ]
  | DeleteBridge name, false =>
      [ Command (IP_BIN +:+ " link set " +:+ name +:+ " down") false;
        Command (IP_BIN +:+ " link delete " +:+ name +:+ " type bridge") false ]
  | DeleteBridge name, true =>
      [ Command (IP_BIN +:+ " link set " +:+ name +:+ " down") false;
        Command (OVS_BIN +:+ " del-br " +:+ name) false ]
  | CreateInterface bridge_name interface_name, false =>
      [ Command (IP_BIN +:+ " link set dev " +:+ interface_name +:+ " master " +:+ bridge_name) false;
        Command (IP_BIN +:+ " link set " +:+ interface_name +:+ " up") false ]
  | CreateInterface bridge_name interface_name, true =>
      [ Command (OVS_BIN +:+ " add-port " +:+ bridge_name +:+ " " +:+ interface_name) false;
        Command (IP_BIN +:+ " link set " +:+ interface_name +:+ " up") false ]
  end.
End Steps.

(** Paths as an installation has them, and a decoder that knows one
    listing; used to run the definitions on concrete inputs. *)
Definition sample_listing : json :=
  JList [ JDict {[ "ifname" := JStr "docker0" ]};
          JDict {[ "ifname" := JStr "b.5.0" ]} ].

Definition dq : string := String (ascii_of_nat 34) EmptyString.

(** The text [[{"ifname":"docker0"},{"ifname":"b.5.0"}]]. *)
Definition sample_text : string :=
  "[{" +:+ dq +:+ "ifname" +:+ dq +:+ ":" +:+ dq +:+ "docker0" +:+ dq +:+ "},{"
    +:+ dq +:+ "ifname" +:+ dq +:+ ":" +:+ dq +:+ "b.5.0" +:+ dq +:+ "}]".

Definition sample_imports : Imports := {|
  IP_BIN := "/sbin/ip";
  OVS_BIN := "/usr/bin/ovs-vsctl";
  TC_BIN := "/sbin/tc";
  ETHTOOL_BIN := "/sbin/ethtool";
  json_loads text :=
    if String.eqb text sample_text then inr sample_listing
    else inl JSONDecodeError
|}.

(** Runners for concrete runs: one that answers every command, one that
    fails the third call, and one that answers the two listing commands. *)
Definition run_ok : runner := λ _ _, inr "".

Definition run_third_fails : runner :=
  λ log _, if Nat.eqb (List.length log) 2
           then inl (CommandError 2 "RTNETLINK answers: Operation not permitted")
           else inr "".

Definition run_listings : runner :=
  λ _ c, if String.eqb (cmd_args c) "/usr/bin/ovs-vsctl list-br"
         then inr "b" else inr sample_text.

Definition no_devices : host :=
  {| path_exists _ := false; exit_status _ := 1%Z |}.

(** ** Method calls as data *)

(** What a method hands back to its caller: [None], a string or a
    boolean. *)
Inductive value : Type :=
  | VNone
  | VStr (s : string)
  | VBool (b : bool).

(** A call of one of the twenty-four methods with its arguments. *)
Inductive invocation : Type :=
  | SetHostname (name : string)
  | CreateRoute (route device : string)
  | DeviceUp (device : string)
  | DeviceDown (device : string)
  | DeviceName (device name : string)
  | DeviceShow (device : string)
  | GetMac (device : string)
  | GetIfindex (device : string)
  | DeviceNs (device namespace : string)
  | DeviceFlush (device : string)
  | DeviceMac (device mac : string)
  | DeleteDevice (device : string)
  | DeleteTc (device : string)
  | ChecksumsOff (interface_name : string)
  | CreateAddress (device address : string) (broadcast : option string)
  | DeleteAddress (device address : string)
  | CreateVeth (name peer : string)
  | CreateGretap (device address : string) (local : option string)
      (ttl key : option Z)
  | BridgeCreate (name : string)
  | BridgeDelete (name : string)
  | InterfaceCreate (bridge_name interface_name : string)
  | InterfaceDelete (bridge_name interface_name : string)
  | ExistingBridges (_id : string)
  | DisableMacLearning (name : string).

Definition returns_none (m : M unit) : M value := m;; mret VNone.

Definition invoke (client : NetClient) (inv : invocation) : M value :=
  match inv with
  | SetHostname name => returns_none (set_hostname client name)
  | CreateRoute route device => returns_none (create_route client route device)
  | DeviceUp device => returns_none (device_up client device)
  | DeviceDown device => returns_none (device_down client device)
  | DeviceName device name => returns_none (device_name client device name)
  | DeviceShow device => output ← device_show client device; mret (VStr output)
  | GetMac device => output ← get_mac client device; mret (VStr output)
  | GetIfindex device => output ← get_ifindex client device; mret (VStr output)
  | DeviceNs device namespace =>
      returns_none (device_ns client device namespace)
  | DeviceFlush device => returns_none (device_flush client device)
  | DeviceMac device mac => returns_none (device_mac client device mac)
  | DeleteDevice device => returns_none (delete_device client device)
  | DeleteTc device => returns_none (delete_tc client device)
  | ChecksumsOff interface_name =>
      returns_none (checksums_off client interface_name)
  | CreateAddress device address broadcast =>
      returns_none (create_address client device address broadcast)
  | DeleteAddress device address =>
      returns_none (delete_address client device address)
  | CreateVeth name peer => returns_none (create_veth client name peer)
  | CreateGretap device address local ttl key =>
      returns_none (create_gretap client device address local ttl key)
  | BridgeCreate name => returns_none (create_bridge client name)
  | BridgeDelete name => returns_none (delete_bridge client name)
  | InterfaceCreate bridge_name interface_name =>
      returns_none (create_interface client bridge_name interface_name)
  | InterfaceDelete bridge_name interface_name =>
      returns_none (delete_interface client bridge_name interface_name)
  | ExistingBridges _id =>
      found ← existing_bridges client _id; mret (VBool found)
  | DisableMacLearning name =>
      returns_none (disable_mac_learning client name)
  end.

(** ** Bridge names *)

(** [sep.join(fields)]. *)
Fixpoint join (sep : ascii) (fields : list string) : string :=
  match fields with
  | [] => ""
  | [field] => field
  | field :: rest => field +:+ String sep (join sep rest)
  end.

Definition dot_free (s : string) : Prop := dot ∉ list_ascii_of_string s.

(** The identity token [b.<id>.<sequence>]. *)
Definition token (_id sequence : string) : string :=
  "b." +:+ _id +:+ "." +:+ sequence.

(** How the virtual-switch loop sees one line: a hit has [b] and the id as
    its first two fields, a trap is a line without a dot that reads [b]. *)
Definition ovs_hit (_id line : string) : Prop :=
  ∃ fields, split dot line = "b" :: _id :: fields.

Definition ovs_trap (line : string) : Prop := split dot line = ["b"].

(** An element of a decoded listing that the kernel-bridge loop cannot
    read, with the exception it raises there. *)
Inductive unreadable : json → exn → Prop :=
  | no_ifname members :
      members !! "ifname" = None →
      unreadable (JDict members) (KeyError "ifname")
  | ifname_not_str members name :
      members !! "ifname" = Some name →
      (∀ s, name ≠ JStr s) →
      unreadable (JDict members) AttributeError
  | not_an_object bridge :
      (∀ members, bridge ≠ JDict members) →
      unreadable bridge TypeError.

(** The imports with one of them replaced. *)
Definition with_ovs_bin (imports : Imports) (path : string) : Imports := {|
  IP_BIN := @IP_BIN imports;
  OVS_BIN := path;
  TC_BIN := @TC_BIN imports;
  ETHTOOL_BIN := @ETHTOOL_BIN imports;
  json_loads := @json_loads imports
|}.

Definition with_json_loads (imports : Imports)
    (loads : string → result json) : Imports := {|
  IP_BIN := @IP_BIN imports;
  OVS_BIN := @OVS_BIN imports;
  TC_BIN := @TC_BIN imports;
  ETHTOOL_BIN := @ETHTOOL_BIN imports;
  json_loads := loads
|}.

(** ** Invariants of a method body *)

(** Every exception of [run] surfaces: the computation only appends to the
    log, and a call that raised is the last one in it, its exception the
    outcome. *)
Definition surfaces {A} (run : runner) (m : M A) : Prop :=
  ∀ log, ∃ cmds,
    (m log).1 = log ++ cmds
    ∧ ∀ k c e, cmds !! k = Some c → run (log ++ take k cmds) c = inl e →
               (m log).2 = inl e ∧ S k = List.length cmds.

(** No call asks for shell interpretation. *)
Definition shell_free {A} (m : M A) : Prop :=
  ∀ log, ∃ cmds,
    (m log).1 = log ++ cmds ∧ Forall (λ c, cmd_shell c = false) cmds.

(** The computation makes no call, or exactly one call whatever [run]
    answers. *)
Definition silent {A} (m : M A) : Prop := ∀ log, (m log).1 = log.

Definition calls_once {A} (m : M A) : Prop :=
  ∀ log, ∃ c, (m log).1 = log ++ [c].

(** * The ucarp service (core/services/ucarp.py) *)

Module Ucarp.

(** The exceptions of the module: [raise ValueError] in [generate_config]
    and the two errors of the [%] operator. [NotModelled] stands for a
    conversion other than [%s] and [%%], which [percent] does not
    interpret. *)
Inductive error : Type :=
  | ValueError
  | TypeError
  | NotModelled.

Definition tab : string := String (ascii_of_nat 9) EmptyString.

(** A text given line by line, every line ended by a newline. *)
Fixpoint unlines (lines : list string) : string :=
  match lines with
  | [] => ""
  | line :: rest => line +:+ String newline (unlines rest)
  end.

(** [template % args] for string arguments: each [%s] takes the next
    argument, [%%] is a percent sign; too few or too many arguments are a
    [TypeError], a lone [%] at the end a [ValueError]. *)
Fixpoint percent (template : string) (args : list string) : error + string :=
  match template with
  | EmptyString =>
      match args with
      | [] => inr ""
      | _ :: _ => inl TypeError
      end
  | String c rest =>
      if Ascii.eqb c "%" then
        match rest with
        | EmptyString => inl ValueError
        | String conversion rest' =>
            if Ascii.eqb conversion "s" then
              match args with
              | [] => inl TypeError
              | arg :: args' =>
                  match percent rest' args' with
                  | inl e => inl e
                  | inr text => inr (arg +:+ text)
                  end
              end
            else if Ascii.eqb conversion "%" then
              match percent rest' args with
              | inl e => inl e
              | inr text => inr (String "%" text)
              end
            else inl NotModelled
        end
      else
        match percent rest args with
        | inl e => inl e
        | inr text => inr (String c text)
        end
  end.

(** [node.session.cfg], a dictionary of strings. *)
Record Session : Type := { cfg : gmap string string }.
Record Node : Type := { session : Session }.

Definition UCARP_ETC : string := "/usr/local/etc/ucarp".

Definition configs : list string :=
  [ UCARP_ETC +:+ "/default.sh";
    UCARP_ETC +:+ "/default-up.sh";
    UCARP_ETC +:+ "/default-down.sh";
    "ucarpboot.sh" ].

(** [cls.configs[i]] for the four positions the module uses. *)
Definition config (i : nat) : string := nth i configs "".

(** The [try]/[except KeyError] at the head of each generator. *)
Definition ucarp_bin_of (node : Node) : string :=
  match cfg (session node) !! "ucarp_bin" with
  | Some path => path
  | None => "/usr/sbin/ucarp"
  end.

Definition ucarp_conf_template : string := unlines [
  "#!/bin/sh";
  "# Location of UCARP executable";
  "UCARP_EXEC=%s";
  "";
  "# Location of the UCARP config directory";
  "UCARP_CFGDIR=%s";
  "";
  "# Logging Facility";
  "FACILITY=daemon";
  "";
  "# Instance ID";
  "# Any number from 1 to 255";
  "INSTANCE_ID=1";
  "";
  "# Password";
  "# Master and Backup(s) need to be the same";
  "PASSWORD=" +:+ dq +:+ "changeme" +:+ dq;
  "";
  "# The failover application address";
  "VIRTUAL_ADDRESS=127.0.0.254";
  "VIRTUAL_NET=8";
  "";
  "# Interface for IP Address";
  "INTERFACE=lo";
  "";
  "# Maintanence address of the local machine";
  "SOURCE_ADDRESS=127.0.0.1";
  "";
  "# The ratio number to be considered before marking the node as dead";
  "DEAD_RATIO=3";
  "";
  "# UCARP base, lower number will be preferred master";
  "# set to same to have master stay as long as possible";
  "UCARP_BASE=1";
  "SKEW=0";
  "";
  "# UCARP options";
  "# -z run shutdown script on exit";
  "# -P force preferred master";
  "# -n don't run down script at start up when we are backup";
  "# -M use broadcast instead of multicast";
  "# -S ignore interface state";
  "OPTIONS=" +:+ dq +:+ "-z -n -M" +:+ dq;
  "";
  "# Send extra parameter to down and up scripts";
  "#XPARAM=" +:+ dq +:+ "-x <enter param here>" +:+ dq;
  "XPARAM=" +:+ dq +:+ "-x ${VIRTUAL_NET}" +:+ dq;
  "";
  "# The start and stop scripts";
  "START_SCRIPT=${UCARP_CFGDIR}/default-up.sh";
  "STOP_SCRIPT=${UCARP_CFGDIR}/default-down.sh";
  "";
  "# These line should not need to be touched";
  "UCARP_OPTS=" +:+ dq +:+ "$OPTIONS -b $UCARP_BASE -k $SKEW -i $INTERFACE -v $INSTANCE_ID -p $PASSWORD -u $START_SCRIPT -d $STOP_SCRIPT -a $VIRTUAL_ADDRESS -s $SOURCE_ADDRESS -f $FACILITY $XPARAM" +:+ dq;
  "";
  "${UCARP_EXEC} -B ${UCARP_OPTS}" ].

Definition ucarp_boot_template : string := unlines [
  "#!/bin/sh";
  "# Location of the UCARP config directory";
  "UCARP_CFGDIR=%s";
  "";
  "chmod a+x ${UCARP_CFGDIR}/*.sh";
  "";
  "# Start the default ucarp daemon configuration";
  "${UCARP_CFGDIR}/default.sh";
  "" ].

Definition vip_up_text : string := unlines [
  "#!/bin/bash";
  "";
  "# Should be invoked as " +:+ dq +:+ "default-up.sh <dev> <ip>" +:+ dq;
  "exec 2> /dev/null";
  "";
  "IP=" +:+ dq +:+ "${2}" +:+ dq;
  "NET=" +:+ dq +:+ "${3}" +:+ dq;
  "if [ -z " +:+ dq +:+ "$NET" +:+ dq +:+ " ]; then";
  tab +:+ "NET=" +:+ dq +:+ "24" +:+ dq;
  "fi";
  "";
  "/sbin/ip addr add ${IP}/${NET} dev " +:+ dq +:+ "$1" +:+ dq;
  "";
  "" ].

Definition vip_down_text : string := unlines [
  "#!/bin/bash";
  "";
  "# Should be invoked as " +:+ dq +:+ "default-down.sh <dev> <ip>" +:+ dq;
  "exec 2> /dev/null";
  "";
  "IP=" +:+ dq +:+ "${2}" +:+ dq;
  "NET=" +:+ dq +:+ "${3}" +:+ dq;
  "if [ -z " +:+ dq +:+ "$NET" +:+ dq +:+ " ]; then";
  tab +:+ "NET=" +:+ dq +:+ "24" +:+ dq;
  "fi";
  "";
  "/sbin/ip addr del ${IP}/${NET} dev " +:+ dq +:+ "$1" +:+ dq;
  "";
  "" ].

Definition generateUcarpConf (node : Node) : error + string :=
  let ucarp_bin := ucarp_bin_of node in
  percent ucarp_conf_template [ucarp_bin; UCARP_ETC].

Definition generateUcarpBoot (node : Node) : error + string :=
  let ucarp_bin := ucarp_bin_of node in
  percent ucarp_boot_template [UCARP_ETC].

Definition generateVipUp (node : Node) : error + string :=
  let ucarp_bin := ucarp_bin_of node in
  inr vip_up_text.

Definition generateVipDown (node : Node) : error + string :=
  let ucarp_bin := ucarp_bin_of node in
  inr vip_down_text.

Definition generate_config (node : Node) (filename : string)
  : error + string :=
  if String.eqb filename (config 0) then generateUcarpConf node
  else if String.eqb filename (config 1) then generateVipUp node
  else if String.eqb filename (config 2) then generateVipDown node
  else if String.eqb filename (config 3) then generateUcarpBoot node
  else inl ValueError.

End Ucarp.

(** Further inputs for concrete runs: a decoder that always yields a given
    value, a runner that always answers a given output, and listings with
    only three-field names, with an object that has no [ifname], and the
    same bridges as the virtual switch prints them. *)
Definition imports_decoding (bridges : json) : Imports := {|
  IP_BIN := "/sbin/ip";
  OVS_BIN := "/usr/bin/ovs-vsctl";
  TC_BIN := "/sbin/tc";
  ETHTOOL_BIN := "/sbin/ethtool";
  json_loads _ := inr bridges
|}.

Definition run_answering (output : string) : runner := λ _ _, inr output.

Definition three_field_listing : json :=
  JList [ JDict {[ "ifname" := JStr "b.5.0" ]};
          JDict {[ "ifname" := JStr "b.7.1" ]} ].

Definition three_field_lines : string := "b.5.0" +:+ String newline "b.7.1".

Definition listing_without_ifname : json :=
  JList [ JDict {[ "ifname" := JStr "docker0" ]};
          JDict {[ "mtu" := JInt 1500 ]} ].

Definition node_without_cfg : Ucarp.Node :=
  {| Ucarp.session := {| Ucarp.cfg := ∅ |} |}.

(** * Properties *)

(** ** [str.split] *)

Example split_three : split dot "b.5.0" = ["b"; "5"; "0"].
Proof. reflexivity. Qed.

Example split_empty : split dot "" = [""].
Proof. reflexivity. Qed.

Example split_gap : split dot "a..b." = ["a"; ""; "b"; ""].
Proof. reflexivity. Qed.

Lemma split_nonempty sep s : split sep s ≠ [].
Proof.
  destruct s as [|c rest]; cbn; [done|].
  destruct (Ascii.eqb c sep); [done|]. by destruct (split sep rest).
Qed.

(** Splitting distributes over a separator between two strings. *)
Lemma split_app_sep sep a b :
  split sep (a +:+ String sep b) = split sep a ++ split sep b.
Proof.
  induction a as [|c a IH].
  - change (split sep (String sep b) = [""] ++ split sep b).
    cbn. by rewrite Ascii.eqb_refl.
  - change (split sep (String c (a +:+ String sep b))
            = split sep (String c a) ++ split sep b).
    cbn. destruct (Ascii.eqb c sep); [by rewrite IH|].
    rewrite IH. pose proof (split_nonempty sep a).
    by destruct (split sep a).
Qed.

Lemma length_append (a b : string) :
  String.length (a +:+ b) = String.length a + String.length b.
Proof.
  induction a as [|c a IH]; [done|].
  change (S (String.length (a +:+ b)) = S (String.length a + String.length b)).
  by rewrite IH.
Qed.

Lemma append_empty_r (s : string) : s +:+ "" = s.
Proof.
  induction s as [|c s IH]; [done|].
  change (String c (s +:+ "") = String c s). by rewrite IH.
Qed.

Lemma append_assoc (a b c : string) : (a +:+ b) +:+ c = a +:+ b +:+ c.
Proof.
  induction a as [|x a IH]; [done|].
  change (String x ((a +:+ b) +:+ c) = String x (a +:+ b +:+ c)).
  by rewrite IH.
Qed.

(** ** Computations *)

Lemma call_log (run : runner) args shell log :
  call run args shell log
  = (log ++ [Command args shell], run log (Command args shell)).
Proof. reflexivity. Qed.

Lemma in_order_cons (run : runner) c rest log :
  in_order run (c :: rest) log
  = match run log c with
    | inl e => (log ++ [c], inl e)
    | inr _ => in_order run rest (log ++ [c])
    end.
Proof. destruct c as [args shell]. reflexivity. Qed.

Lemma in_order_accepts (run : runner) cmds : ∀ log,
  accepts run log cmds = true →
  in_order run cmds log = (log ++ cmds, inr ()).
Proof.
  induction cmds as [|c rest IH]; intros log Hacc.
  - cbn. by rewrite app_nil_r.
  - rewrite in_order_cons. cbn in Hacc.
    destruct (run log c) as [e|output]; [done|].
    rewrite (IH _ Hacc). by rewrite <- app_assoc.
Qed.

Lemma in_order_raises (run : runner) cmds : ∀ log k c e,
  cmds !! k = Some c →
  accepts run log (take k cmds) = true →
  run (log ++ take k cmds) c = inl e →
  in_order run cmds log = (log ++ take (S k) cmds, inl e).
Proof.
  induction cmds as [|c0 rest IH]; intros log k c e Hk Hacc Hrun; [done|].
  rewrite in_order_cons. destruct k as [|k].
  - cbn in Hk. injection Hk as <-. cbn in Hrun. rewrite app_nil_r in Hrun.
    rewrite Hrun. cbn. by rewrite take_0.
  - cbn in Hk, Hacc, Hrun.
    destruct (run log c0) as [e'|output]; [done|].
    rewrite (IH (log ++ [c0]) k c e Hk Hacc).
    + cbn. by rewrite <- app_assoc.
    + by rewrite <- app_assoc.
Qed.

Lemma in_order_prefix (run : runner) (cmds : list command) : ∀ log,
  ∃ n, n ≤ List.length cmds ∧ (cmds ≠ [] → 1 ≤ n)
       ∧ (in_order run cmds log).1 = log ++ take n cmds.
Proof.
  induction cmds as [|c rest IH]; intros log.
  - exists 0. cbn. by rewrite app_nil_r.
  - rewrite in_order_cons. destruct (run log c) as [e|output].
    + exists 1. cbn. split; [lia|]. split; [done|]. by rewrite take_0.
    + destruct (IH (log ++ [c])) as (n & Hn & _ & Heq).
      exists (S n). split; [cbn; lia|]. split; [lia|]. rewrite Heq. cbn.
      by rewrite <- app_assoc.
Qed.

Section ClientFacts.
Context `{Imports}.

(** Self-calls of an instantiated object reach the object's own methods. *)
Lemma new_is_self (run : runner) :
  LinuxNetClient run (new (LinuxNetClient run)) = new (LinuxNetClient run)
  ∧ OvsNetClient run (new (OvsNetClient run)) = new (OvsNetClient run).
Proof. split; reflexivity. Qed.

Lemma perform_in_order use_ovs (run : runner) op log :
  perform (get_net_client use_ovs run) op log
  = in_order run (steps use_ovs op) log.
Proof.
  destruct use_ovs, op; cbn; unfold mbind, M_bind, bind;
    rewrite ?call_log;
    repeat (match goal with
            | |- context [run ?l ?c] => destruct (run l c); cbn
            end; rewrite ?call_log);
    reflexivity.
Qed.

End ClientFacts.

(** ** Bridges and their interfaces *)

Section BridgeFabric.
Context `{Imports}.

(** C2. [create_bridge] issues the command that creates the bridge first,
    then the three property commands, and the bring-up command last: what
    reaches [run] is always a non-empty prefix of that list, and the whole
    list, in that order, when no command raises. *)
Theorem create_bridge_order (use_ovs : bool) (run : runner) name log :
  let cmds :=
    if use_ovs then
      [ Command (OVS_BIN +:+ " add-br " +:+ name) false;
        Command (OVS_BIN +:+ " set bridge " +:+ name +:+ " stp_enable=false") false;
        Command (OVS_BIN +:+ " set bridge " +:+ name +:+ " other_config:stp-max-age=6") false;
        Command (OVS_BIN +:+ " set bridge " +:+ name +:+ " other_config:stp-forward-delay=4") false;
        Command (IP_BIN +:+ " link set " +:+ name +:+ " up") false ]
    else
      [ Command (IP_BIN +:+ " link add name " +:+ name +:+ " type bridge") false;
        Command (IP_BIN +:+ " link set " +:+ name +:+ " type bridge stp_state 0") false;
        Command (IP_BIN +:+ " link set " +:+ name +:+ " type bridge forward_delay 0") false;
        Command (IP_BIN +:+ " link set " +:+ name +:+ " type bridge mcast_snooping 0") false;
        Command (IP_BIN +:+ " link set " +:+ name +:+ " up") false ] in
  (∃ n, 1 ≤ n ≤ 5 ∧
     (create_bridge (get_net_client use_ovs run) name log).1
     = log ++ take n cmds)
  ∧ (accepts run log cmds = true →
     create_bridge (get_net_client use_ovs run) name log
     = (log ++ cmds, inr ())).
Proof.
  intros cmds.
  assert (Hsteps : steps use_ovs (CreateBridge name) = cmds)
    by (by destruct use_ovs).
  pose proof (perform_in_order use_ovs run (CreateBridge name) log) as Hrun.
  cbn [perform] in Hrun. rewrite Hrun, Hsteps. split.
  - destruct (in_order_prefix run cmds log) as (n & Hlen & Hone & Hlog).
    exists n. split; [|done]. split.
    + apply Hone. by destruct use_ovs.
    + by destruct use_ovs.
  - apply in_order_accepts.
Qed.

(** C3. [delete_bridge] first brings the bridge down and then deletes it:
    when the first command does not raise, exactly these two commands are
    issued, in this order; the first one is issued in any case. *)
Theorem delete_bridge_order (use_ovs : bool) (run : runner) name log :
  let down := Command (IP_BIN +:+ " link set " +:+ name +:+ " down") false in
  let delete :=
    if use_ovs then Command (OVS_BIN +:+ " del-br " +:+ name) false
    else Command (IP_BIN +:+ " link delete " +:+ name +:+ " type bridge") false in
  (delete_bridge (get_net_client use_ovs run) name log).1
  = log ++ match run log down with
           | inr _ => [down; delete]
           | inl _ => [down]
           end.
Proof.
  intros down delete.
  pose proof (perform_in_order use_ovs run (DeleteBridge name) log) as Hrun.
  cbn [perform] in Hrun. rewrite Hrun.
  assert (Hsteps : steps use_ovs (DeleteBridge name) = [down; delete])
    by (by destruct use_ovs).
  rewrite Hsteps, !in_order_cons. cbn [in_order].
  destruct (run log down); [done|].
  destruct (run (log ++ [down]) delete); cbn; by rewrite <- app_assoc.
Qed.


(** The detach commands are never the command that brings the interface
    down. For the kernel bridge the two differ in length; for the virtual
    switch they differ in their second word. *)
Lemma nomaster_is_not_down interface_name :
  IP_BIN +:+ " link set dev " +:+ interface_name +:+ " nomaster"
  ≠ IP_BIN +:+ " link set " +:+ interface_name +:+ " down".
Proof.
  intros Heq. apply (f_equal String.length) in Heq.
  rewrite !length_append in Heq. cbn in Heq. lia.
Qed.

Lemma del_port_is_not_down bridge_name interface_name :
  single_word IP_BIN → single_word OVS_BIN →
  OVS_BIN +:+ " del-port " +:+ bridge_name +:+ " " +:+ interface_name
  ≠ IP_BIN +:+ " link set " +:+ interface_name +:+ " down".
Proof.
  intros Hip Hovs Heq. apply (f_equal (split space)) in Heq.
  change (split space
            (OVS_BIN +:+ String space
               ("del-port" +:+ String space
                  (bridge_name +:+ " " +:+ interface_name)))
          = split space
              (IP_BIN +:+ String space
                 ("link" +:+ String space
                    ("set " +:+ interface_name +:+ " down")))) in Heq.
  rewrite !split_app_sep in Heq.
  rewrite Hip, Hovs in Heq. cbn in Heq. congruence.
Qed.

(** C4. [create_interface] issues the attach command and then the command
    that brings the interface up; [delete_interface] issues the detach
    command alone, and that command is not the one bringing the interface
    down. The paths of the two binaries are taken to be single words. *)
Theorem interface_attach_detach (use_ovs : bool) (run : runner)
    bridge_name interface_name log :
  single_word IP_BIN → single_word OVS_BIN →
  let attach :=
    if use_ovs then
      Command (OVS_BIN +:+ " add-port " +:+ bridge_name +:+ " " +:+ interface_name) false
    else
      Command (IP_BIN +:+ " link set dev " +:+ interface_name +:+ " master " +:+ bridge_name) false in
  let detach :=
    if use_ovs then
      Command (OVS_BIN +:+ " del-port " +:+ bridge_name +:+ " " +:+ interface_name) false
    else
      Command (IP_BIN +:+ " link set dev " +:+ interface_name +:+ " nomaster") false in
  let up := Command (IP_BIN +:+ " link set " +:+ interface_name +:+ " up") false in
  let down := Command (IP_BIN +:+ " link set " +:+ interface_name +:+ " down") false in
  (create_interface (get_net_client use_ovs run) bridge_name interface_name log).1
  = log ++ match run log attach with
           | inr _ => [attach; up]
           | inl _ => [attach]
           end
  ∧ (delete_interface (get_net_client use_ovs run) bridge_name interface_name log).1
    = log ++ [detach]
  ∧ down ∉ [detach].
Proof.
  intros Hip Hovs attach detach up down. split; [|split].
  - pose proof (perform_in_order use_ovs run
                  (CreateInterface bridge_name interface_name) log) as Hrun.
    cbn [perform] in Hrun. rewrite Hrun.
    assert (Hsteps : steps use_ovs (CreateInterface bridge_name interface_name)
                     = [attach; up]) by (by destruct use_ovs).
    rewrite Hsteps, !in_order_cons. cbn [in_order].
    destruct (run log attach); [done|].
    destruct (run (log ++ [attach]) up); cbn; by rewrite <- app_assoc.
  - destruct use_ovs; cbn; unfold mbind, M_bind, bind; rewrite call_log;
      by destruct (run log _).
  - intros Hin%list_elem_of_singleton. subst detach down.
    destruct use_ovs; injection Hin as Hin; symmetry in Hin.
    + by apply del_port_is_not_down in Hin.
    + by apply nomaster_is_not_down in Hin.
Qed.

(** C8. No multi-step operation rolls back. When the command at position
    [k] of an operation's command list raises and the ones before it did
    not, the log holds exactly the commands up to and including that one,
    nothing after it, and the operation raises the same exception. *)
Theorem no_rollback (use_ovs : bool) (run : runner) op log k c e :
  steps use_ovs op !! k = Some c →
  accepts run log (take k (steps use_ovs op)) = true →
  run (log ++ take k (steps use_ovs op)) c = inl e →
  perform (get_net_client use_ovs run) op log
  = (log ++ take k (steps use_ovs op) ++ [c], inl e).
Proof.
  intros Hk Hacc Hrun. rewrite perform_in_order.
  rewrite (in_order_raises run _ log k c e Hk Hacc Hrun).
  by rewrite (take_S_r _ _ _ Hk).
Qed.

End BridgeFabric.

(** ** Devices, addresses and tunnels *)

Section Devices.
Context `{Imports}.

(** C5. [create_gretap] issues one command: the remote address is always
    part of it, and after it come the [local], [ttl] and [key] modifiers,
    in this order, each present exactly when its argument is given. With
    the address alone the command ends after the address. *)
Theorem create_gretap_modifiers (use_ovs : bool) (run : runner)
    device address local ttl key log :
  let base :=
    IP_BIN +:+ " link add " +:+ device +:+ " type gretap remote " +:+ address in
  let cmd :=
    Command
      (base +:+ modifier " local " local
            +:+ modifier " ttl " (pretty <$> ttl)
            +:+ modifier " key " (pretty <$> key)) false in
  create_gretap (get_net_client use_ovs run) device address local ttl key log
  = (log ++ [cmd], run log cmd ≫= λ _, inr ())
  ∧ create_gretap (get_net_client use_ovs run) device address None None None log
    = (log ++ [Command base false], run log (Command base false) ≫= λ _, inr ()).
Proof.
  intros base cmd.
  assert (Hcmd : ∀ (local : option string) (ttl key : option Z),
    base +:+ modifier " local " local +:+ modifier " ttl " (pretty <$> ttl)
         +:+ modifier " key " (pretty <$> key)
    = let cmd := base in
      let cmd := match local with
                 | Some local => cmd +:+ " local " +:+ local
                 | None => cmd
                 end in
      let cmd := match ttl with
                 | Some ttl => cmd +:+ " ttl " +:+ pretty ttl
                 | None => cmd
                 end in
      match key with
      | Some key => cmd +:+ " key " +:+ pretty key
      | None => cmd
      end).
  { intros l t k. unfold modifier.
    destruct l, t, k; cbn -[String.append pretty];
      rewrite ?append_empty_r, ?append_assoc; reflexivity. }
  assert (Hgen : ∀ (local : option string) (ttl key : option Z),
    create_gretap (get_net_client use_ovs run) device address local ttl key log
    = (log ++ [Command (base +:+ modifier " local " local
                             +:+ modifier " ttl " (pretty <$> ttl)
                             +:+ modifier " key " (pretty <$> key)) false],
       run log (Command (base +:+ modifier " local " local
                              +:+ modifier " ttl " (pretty <$> ttl)
                              +:+ modifier " key " (pretty <$> key)) false)
         ≫= λ _, inr ())).
  { intros l t k. rewrite (Hcmd l t k). cbn zeta.
    destruct use_ovs; cbn -[String.append pretty];
      unfold mbind, M_bind, bind; rewrite call_log; fold base;
      by destruct (run log _). }
  split; [apply Hgen|].
  rewrite (Hgen None None None). cbn -[String.append].
  by rewrite append_empty_r.
Qed.

(** C6. [create_address] issues the broadcast form of the address-add
    command when a broadcast address is given and the plain form when it
    is [None]. Word by word, the broadcast form is the plain form with the
    word [broadcast] and the given value between the address and [dev];
    the plain form has no word of its own that reads [broadcast]. *)
Theorem create_address_forms (use_ovs : bool) (run : runner)
    device address broadcast log :
  let plain := IP_BIN +:+ " address add " +:+ address +:+ " dev " +:+ device in
  let with_broadcast value :=
    IP_BIN +:+ " address add " +:+ address +:+ " broadcast " +:+ value
           +:+ " dev " +:+ device in
  let cmd :=
    Command match broadcast with
            | Some value => with_broadcast value
            | None => plain
            end false in
  create_address (get_net_client use_ovs run) device address broadcast log
  = (log ++ [cmd], run log cmd ≫= λ _, inr ())
  ∧ split space plain
    = split space IP_BIN ++ ["address"; "add"] ++ split space address
        ++ ["dev"] ++ split space device
  ∧ ∀ value,
      split space (with_broadcast value)
      = split space IP_BIN ++ ["address"; "add"] ++ split space address
          ++ ["broadcast"] ++ split space value
          ++ ["dev"] ++ split space device.
Proof.
  intros plain with_broadcast cmd. split; [|split].
  - subst cmd.
    destruct use_ovs, broadcast; cbn -[String.append];
      unfold mbind, M_bind, bind; rewrite call_log;
      by destruct (run log _).
  - subst plain.
    transitivity
      (split space
         (IP_BIN +:+ String space
            ("address" +:+ String space
               ("add" +:+ String space
                  (address +:+ String space
                     ("dev" +:+ String space device))))));
      [reflexivity|].
    by rewrite !split_app_sep.
  - intros value. subst with_broadcast.
    transitivity
      (split space
         (IP_BIN +:+ String space
            ("address" +:+ String space
               ("add" +:+ String space
                  (address +:+ String space
                     ("broadcast" +:+ String space
                        (value +:+ String space
                           ("dev" +:+ String space device))))))));
      [reflexivity|].
    by rewrite !split_app_sep.
Qed.










(** C10. The eighteen methods the virtual-switch client does not override
    are the same functions in both clients: for all arguments and every
    log they issue the same commands and return the same result. *)
Theorem inherited_methods_agree (run : runner) :
  let ovs := get_net_client true run in
  let linux := get_net_client false run in
  set_hostname ovs = set_hostname linux
  ∧ create_route ovs = create_route linux
  ∧ device_up ovs = device_up linux
  ∧ device_down ovs = device_down linux
  ∧ device_name ovs = device_name linux
  ∧ device_show ovs = device_show linux
  ∧ get_mac ovs = get_mac linux
  ∧ get_ifindex ovs = get_ifindex linux
  ∧ device_ns ovs = device_ns linux
  ∧ device_flush ovs = device_flush linux
  ∧ device_mac ovs = device_mac linux
  ∧ delete_device ovs = delete_device linux
  ∧ delete_tc ovs = delete_tc linux
  ∧ checksums_off ovs = checksums_off linux
  ∧ create_address ovs = create_address linux
  ∧ delete_address ovs = delete_address linux
  ∧ create_veth ovs = create_veth linux
  ∧ create_gretap ovs = create_gretap linux.
Proof. cbv zeta. repeat split. Qed.

End Devices.

(** ** Bridge listings *)

(** The kernel-bridge loop over a parseable listing returns a boolean, and
    it is [True] exactly when one of the names collides with the id. *)
Lemma linux_scan_collides _id items names :
  Forall2 ifname_of items names →
  ∃ found, linux_scan _id items = inr found
           ∧ (found = true ↔ ∃ name, name ∈ names ∧ collides _id name).
Proof.
  induction 1 as [|bridge name items names (members & -> & Hname) _ IH].
  - exists false. split; [done|]. split; [done|].
    intros (name & Hin & _). by apply elem_of_nil in Hin.
  - destruct IH as (found & Hscan & Hfound).
    assert (Hskip : ¬ collides _id name →
              (found = true
               ↔ ∃ name', name' ∈ name :: names ∧ collides _id name')).
    { intros Hno. rewrite Hfound. split.
      - intros (name' & Hin & Hc). exists name'. split; [by right|done].
      - intros (name' & Hin & Hc). apply elem_of_cons in Hin as [->|Hin];
          [done|by exists name']. }
    cbn [linux_scan getitem]. rewrite Hname. cbn [mbind result_bind split_dots].
    destruct (split dot name) as [|f0 [|f1 [|f2 [|f3 fields]]]] eqn:Hsplit;
      cbn -[String.eqb]; try (exists found; split; [done|]; apply Hskip;
                              intros [sequence Hc]; congruence).
    destruct (String.eqb_spec f0 "b") as [->|Hf0]; cbn -[String.eqb].
    + destruct (String.eqb_spec f1 _id) as [->|Hf1].
      * exists true. split; [done|]. split; [|done]. intros _.
        exists name. split; [by left|]. by exists f2.
      * exists found. split; [done|]. apply Hskip.
        intros [sequence Hc]. congruence.
    + exists found. split; [done|]. apply Hskip.
      intros [sequence Hc]. congruence.
Qed.

(** The virtual-switch loop raises at a line without a dot that reads [b],
    unless an earlier line already has [b] and the id as its first two
    fields. *)
Lemma ovs_scan_raises _id pre line post :
  split dot line = ["b"] →
  (∀ l, l ∈ pre → ¬ ∃ fields, split dot l = "b" :: _id :: fields) →
  ovs_scan _id (pre ++ line :: post) = inl IndexError.
Proof.
  intros Hline. induction pre as [|l pre IH]; intros Hpre.
  - cbn [app ovs_scan]. by rewrite Hline.
  - assert (Hrest : ovs_scan _id (pre ++ line :: post) = inl IndexError).
    { apply IH. intros l' Hl'. apply Hpre. by right. }
    assert (Hl : ¬ ∃ fields, split dot l = "b" :: _id :: fields).
    { apply Hpre. by left. }
    change ((l :: pre) ++ line :: post) with (l :: pre ++ line :: post).
    cbn [ovs_scan]. pose proof (split_nonempty dot l) as Hne.
    destruct (split dot l) as [|f0 [|f1 fields]]; [done|..];
      cbn -[String.eqb].
    + by destruct (String.eqb f0 "b").
    + destruct (String.eqb_spec f0 "b") as [->|Hf0]; cbn -[String.eqb];
        [|done].
      destruct (String.eqb_spec f1 _id) as [->|Hf1]; [|done].
      destruct Hl. by exists fields.
Qed.

Section Listings.
Context `{Imports}.

(** The kernel-bridge query reports a collision exactly for a name with
    three fields, [b] first and the id second. *)
Lemma linux_existing_bridges_collides (run : runner) _id log output
    bridges names :
  run log (Command (IP_BIN +:+ " -j link show type bridge") false)
    = inr output →
  json_loads output = inr bridges →
  parseable bridges names →
  ∃ found,
    existing_bridges (get_net_client false run) _id log
    = (log ++ [Command (IP_BIN +:+ " -j link show type bridge") false],
       inr found)
    ∧ (found = true ↔ ∃ name, name ∈ names ∧ collides _id name).
Proof.
  intros Hrun Hloads (items & -> & Hitems).
  destruct (linux_scan_collides _id items names Hitems)
    as (found & Hscan & Hfound).
  exists found. split; [|done].
  cbn -[String.append]. unfold mbind at 1 2, M_bind, bind, lift.
  rewrite call_log, Hrun, Hloads. cbn. by rewrite Hscan.
Qed.

(** C1. The virtual-switch query reports a collision for a bridge whose
    name has two fields: on the listing [b.5] it returns [True] for the
    node id [5], although [b.5] does not have the three-field shape. *)
Theorem ovs_collision_without_three_fields log :
  let run : runner := λ _ _, inr "b.5" in
  existing_bridges (get_net_client true run) "5" log
  = (log ++ [Command (OVS_BIN +:+ " list-br") false], inr true)
  ∧ ¬ collides "5" "b.5".
Proof.
  split; [reflexivity|]. intros [sequence Hsplit]. discriminate Hsplit.
Qed.


(** C9. The virtual-switch query is partial where the kernel-bridge query
    is total. When the listing has a line without a dot whose only field is
    [b], and no earlier line has [b] and the id as its first two fields, the
    virtual-switch query raises [IndexError] instead of returning a boolean;
    the kernel-bridge query returns a boolean for every parseable listing. *)
Theorem existing_bridges_totality (run : runner) _id log :
  (∀ output pre line post,
     run log (Command (OVS_BIN +:+ " list-br") false) = inr output →
     split newline output = pre ++ line :: post →
     split dot line = ["b"] →
     (∀ l, l ∈ pre → ¬ ∃ fields, split dot l = "b" :: _id :: fields) →
     existing_bridges (get_net_client true run) _id log
     = (log ++ [Command (OVS_BIN +:+ " list-br") false], inl IndexError))
  ∧ (∀ output bridges names,
       run log (Command (IP_BIN +:+ " -j link show type bridge") false)
         = inr output →
       json_loads output = inr bridges →
       parseable bridges names →
       ∃ found,
         existing_bridges (get_net_client false run) _id log
         = (log ++ [Command (IP_BIN +:+ " -j link show type bridge") false],
            inr found)).
Proof.
  split.
  - intros output pre line post Hrun Hlines Hline Hpre.
    cbn -[String.append String.eqb]. unfold mbind, M_bind, bind.
    rewrite call_log, Hrun.
    destruct (String.eqb_spec output "") as [->|Hout].
    + destruct pre as [|l [|l' pre]]; [|discriminate Hlines..].
      injection Hlines as <- _. discriminate Hline.
    + cbn [negb]. unfold lift. by rewrite Hlines, ovs_scan_raises.
  - intros output bridges names Hrun Hloads Hparse.
    destruct (linux_existing_bridges_collides run _id log output bridges
                names Hrun Hloads Hparse) as (found & Hfound & _).
    by exists found.
Qed.

End Listings.

(** ** The properties on concrete inputs *)

Example kernel_scenario :
  let client := @get_net_client sample_imports false run_ok in
  (create_bridge client "b.5.0";;
   create_interface client "b.5.0" "veth0";;
   disable_mac_learning client "b.5.0";;
   delete_interface client "b.5.0" "veth0";;
   delete_bridge client "b.5.0") []
  = ([ Command "/sbin/ip link add name b.5.0 type bridge" false;
       Command "/sbin/ip link set b.5.0 type bridge stp_state 0" false;
       Command "/sbin/ip link set b.5.0 type bridge forward_delay 0" false;
       Command "/sbin/ip link set b.5.0 type bridge mcast_snooping 0" false;
       Command "/sbin/ip link set b.5.0 up" false;
       Command "/sbin/ip link set dev veth0 master b.5.0" false;
       Command "/sbin/ip link set veth0 up" false;
       Command "/sbin/ip link set b.5.0 type bridge ageing_time 0" false;
       Command "/sbin/ip link set dev veth0 nomaster" false;
       Command "/sbin/ip link set b.5.0 down" false;
       Command "/sbin/ip link delete b.5.0 type bridge" false ], inr ()).
Proof. reflexivity. Qed.

Example ovs_scenario :
  let client := @get_net_client sample_imports true run_ok in
  (create_bridge client "b.5.0";;
   create_interface client "b.5.0" "veth0";;
   disable_mac_learning client "b.5.0";;
   delete_interface client "b.5.0" "veth0";;
   delete_bridge client "b.5.0") []
  = ([ Command "/usr/bin/ovs-vsctl add-br b.5.0" false;
       Command "/usr/bin/ovs-vsctl set bridge b.5.0 stp_enable=false" false;
       Command "/usr/bin/ovs-vsctl set bridge b.5.0 other_config:stp-max-age=6" false;
       Command "/usr/bin/ovs-vsctl set bridge b.5.0 other_config:stp-forward-delay=4" false;
       Command "/sbin/ip link set b.5.0 up" false;
       Command "/usr/bin/ovs-vsctl add-port b.5.0 veth0" false;
       Command "/sbin/ip link set veth0 up" false;
       Command "/usr/bin/ovs-vsctl set bridge b.5.0 other_config:mac-aging-time=0" false;
       Command "/usr/bin/ovs-vsctl del-port b.5.0 veth0" false;
       Command "/sbin/ip link set b.5.0 down" false;
       Command "/usr/bin/ovs-vsctl del-br b.5.0" false ], inr ()).
Proof. reflexivity. Qed.

Example gretap_all_modifiers :
  (create_gretap (@get_net_client sample_imports false run_ok)
     "gt0" "10.0.0.2" (Some "10.0.0.1") (Some 64%Z) (Some 7%Z) []).1
  = [ Command
        "/sbin/ip link add gt0 type gretap remote 10.0.0.2 local 10.0.0.1 ttl 64 key 7"
        false ].
Proof. by vm_compute. Qed.

Example gretap_ttl_only :
  (create_gretap (@get_net_client sample_imports false run_ok)
     "gt0" "10.0.0.2" None (Some 64%Z) None []).1
  = [ Command "/sbin/ip link add gt0 type gretap remote 10.0.0.2 ttl 64" false ].
Proof. by vm_compute. Qed.

Example kernel_listing_found :
  (existing_bridges (@get_net_client sample_imports false run_listings)
     "5" []).2 = inr true
  ∧ (existing_bridges (@get_net_client sample_imports false run_listings)
       "docker0" []).2 = inr false.
Proof. split; by vm_compute. Qed.

Example kernel_listing_foo_bar :
  linux_scan "bar" [ JDict {[ "ifname" := JStr "foo.bar" ]} ] = inr false.
Proof. by vm_compute. Qed.

Example kernel_listing_without_ifname :
  linux_scan "5" [ JDict {[ "mtu" := JInt 1500 ]} ] = inl (KeyError "ifname").
Proof. by vm_compute. Qed.

Example ovs_listing_line_b :
  ovs_scan "5" (split newline "b") = inl IndexError.
Proof. reflexivity. Qed.

Lemma sample_listing_parseable :
  parseable sample_listing ["docker0"; "b.5.0"].
Proof.
  eexists. split; [reflexivity|].
  repeat constructor; eexists; (split; [reflexivity|]); by vm_compute.
Defined.

Lemma create_bridge_order_witness :
  create_bridge (@get_net_client sample_imports false run_ok) "b.5.0" []
  = ([ Command "/sbin/ip link add name b.5.0 type bridge" false;
       Command "/sbin/ip link set b.5.0 type bridge stp_state 0" false;
       Command "/sbin/ip link set b.5.0 type bridge forward_delay 0" false;
       Command "/sbin/ip link set b.5.0 type bridge mcast_snooping 0" false;
       Command "/sbin/ip link set b.5.0 up" false ], inr ()).
Proof.
  apply (proj2 (@create_bridge_order sample_imports false run_ok "b.5.0" [])).
  reflexivity.
Defined.

Lemma interface_attach_detach_witness :
  (delete_interface (@get_net_client sample_imports true run_ok)
     "b.5.0" "veth0" []).1
  = [ Command "/usr/bin/ovs-vsctl del-port b.5.0 veth0" false ]
  ∧ Command "/sbin/ip link set veth0 down" false
    ∉ [ Command "/usr/bin/ovs-vsctl del-port b.5.0 veth0" false ].
Proof.
  apply (@interface_attach_detach sample_imports true run_ok
           "b.5.0" "veth0" []); reflexivity.
Defined.

Example sh_left_to_right :
  sh_run no_devices "true || true && [ -e /nonexistent ]" = Exit 1 [].
Proof. reflexivity. Qed.

Example sh_flush_absent :
  sh_run no_devices
    "[ -e /sys/class/net/eth0 ] && /sbin/ip -6 address flush dev eth0 || true"
  = Exit 0 [].
Proof. reflexivity. Qed.

Example sh_flush_present_and_failing :
  sh_run {| path_exists _ := true; exit_status _ := 1%Z |}
    "[ -e /sys/class/net/eth0 ] && /sbin/ip -6 address flush dev eth0 || true"
  = Exit 0 [["/sbin/ip"; "-6"; "address"; "flush"; "dev"; "eth0"]].
Proof. reflexivity. Qed.

Example sh_parenthesis :
  sh_run no_devices
    "[ -e /sys/class/net/a(b ] && /sbin/ip -6 address flush dev a(b || true"
  = SyntaxFailure.
Proof. reflexivity. Qed.

Example sh_background :
  sh_run no_devices
    "[ -e /sys/class/net/eth0& ] && /sbin/ip -6 address flush dev eth0& || true"
  = OutsideModel.
Proof. reflexivity. Qed.



Lemma no_rollback_witness :
  perform (@get_net_client sample_imports false run_third_fails)
    (CreateBridge "b.5.0") []
  = ([ Command "/sbin/ip link add name b.5.0 type bridge" false;
       Command "/sbin/ip link set b.5.0 type bridge stp_state 0" false;
       Command "/sbin/ip link set b.5.0 type bridge forward_delay 0" false ],
     inl (CommandError 2 "RTNETLINK answers: Operation not permitted")).
Proof.
  apply (@no_rollback sample_imports false run_third_fails
           (CreateBridge "b.5.0") [] 2); reflexivity.
Defined.

Lemma existing_bridges_totality_witness :
  existing_bridges (@get_net_client sample_imports true run_listings) "5" []
  = ([ Command "/usr/bin/ovs-vsctl list-br" false ], inl IndexError)
  ∧ ∃ found,
      existing_bridges (@get_net_client sample_imports false run_listings)
        "5" []
      = ([ Command "/sbin/ip -j link show type bridge" false ], inr found).
Proof.
  pose proof (@existing_bridges_totality sample_imports run_listings "5" [])
    as [Hovs Hlinux].
  split.
  - apply (Hovs "b" [] "b" []); [reflexivity|reflexivity|reflexivity|].
    intros l Hin. by apply elem_of_nil in Hin.
  - apply (Hlinux sample_text sample_listing ["docker0"; "b.5.0"]);
      [reflexivity|reflexivity|exact sample_listing_parseable].
Defined.

(** Without the condition on the earlier lines C9 fails: not every listing
    with a line without a dot whose first field is [b] makes the
    virtual-switch query raise. On the two lines [b.5.0] and [b] the query
    for id [5] returns [True]. *)
Lemma ovs_line_b_after_match :
  ¬ ∀ (run : runner) _id log output line,
      run log (Command "/usr/bin/ovs-vsctl list-br" false) = inr output →
      line ∈ split newline output →
      split dot line = ["b"] →
      (existing_bridges (@get_net_client sample_imports true run) _id log).2
      = inl IndexError.
Proof.
  intros Hall.
  specialize (Hall (λ _ _, inr ("b.5.0" +:+ String newline "b")) "5" []
                   ("b.5.0" +:+ String newline "b") "b" eq_refl).
  assert (Hin : "b" ∈ split newline ("b.5.0" +:+ String newline "b")).
  { vm_compute. right. left. }
  specialize (Hall Hin eq_refl). discriminate Hall.
Qed.

(** * Further properties *)

(** ** Fields and tokens *)

Lemma split_fields_free sep s field :
  field ∈ split sep s → sep ∉ list_ascii_of_string field.
Proof.
  revert field. induction s as [|c rest IH]; intros field Hin.
  - apply list_elem_of_singleton in Hin as ->. cbn. apply not_elem_of_nil.
  - cbn in Hin. destruct (Ascii.eqb_spec c sep) as [->|Hc].
    + apply elem_of_cons in Hin as [->|Hin]; [apply not_elem_of_nil|by apply IH].
    + pose proof (split_nonempty sep rest) as Hne.
      destruct (split sep rest) as [|hd tl]; [done|].
      apply elem_of_cons in Hin as [->|Hin].
      * cbn. intros [Heq|Hhd]%elem_of_cons; [by subst|].
        revert Hhd. apply IH. by left.
      * apply IH. by right.
Qed.

Lemma split_free sep s :
  sep ∉ list_ascii_of_string s → split sep s = [s].
Proof.
  induction s as [|c rest IH]; intros Hfree; [done|].
  cbn in Hfree |- *. apply not_elem_of_cons in Hfree as [Hc Hrest].
  destruct (Ascii.eqb_spec c sep) as [->|_]; [done|]. by rewrite IH.
Qed.

Lemma join_cons_char sep c field fields :
  join sep (String c field :: fields) = String c (join sep (field :: fields)).
Proof. by destruct fields. Qed.

(** Joining the fields of a string with the separator gives the string
    back. *)
Lemma join_split sep s : join sep (split sep s) = s.
Proof.
  induction s as [|c rest IH]; [done|].
  cbn [split]. pose proof (split_nonempty sep rest) as Hne.
  destruct (Ascii.eqb_spec c sep) as [->|_].
  - destruct (split sep rest) as [|hd tl] eqn:Hsplit; [done|].
    change (join sep ("" :: hd :: tl)) with (String sep (join sep (hd :: tl))).
    by rewrite IH.
  - destruct (split sep rest) as [|hd tl] eqn:Hsplit; [done|].
    by rewrite join_cons_char, IH.
Qed.

(** A name collides with an id exactly when it is the token of the id and
    some sequence, both without a dot. *)
Lemma collides_token _id name :
  collides _id name
  ↔ ∃ sequence, name = token _id sequence ∧ dot_free _id ∧ dot_free sequence.
Proof.
  unfold collides, token, dot_free. split.
  - intros [sequence Hsplit]. exists sequence. split; [|split].
    + rewrite <- (join_split dot name), Hsplit. reflexivity.
    + apply (split_fields_free dot name). rewrite Hsplit. set_solver.
    + apply (split_fields_free dot name). rewrite Hsplit. set_solver.
  - intros (sequence & -> & Hid & Hseq). exists sequence.
    change (split dot ("b" +:+ String dot (_id +:+ String dot sequence))
            = ["b"; _id; sequence]).
    by rewrite !split_app_sep, (split_free _ _ Hid), (split_free _ _ Hseq).
Qed.

Lemma linux_scan_true_free _id items :
  linux_scan _id items = inr true → dot_free _id.
Proof.
  induction items as [|bridge rest IH]; [done|].
  cbn [linux_scan]. destruct (getitem bridge "ifname") as [e|name]; [done|].
  cbn [mbind result_bind].
  destruct name as [| | | |s| |]; try done. cbn [split_dots].
  pose proof (split_fields_free dot s) as Hfree.
  destruct (split dot s) as [|f0 [|f1 [|f2 [|f3 fields]]]];
    cbn -[String.eqb]; try done.
  destruct (String.eqb f0 "b"); cbn -[String.eqb]; [|done].
  destruct (String.eqb_spec f1 _id) as [<-|_]; [|done].
  intros _. apply Hfree. set_solver.
Qed.

Lemma ovs_scan_true_free _id lines :
  ovs_scan _id lines = inr true → dot_free _id.
Proof.
  induction lines as [|line rest IH]; [done|].
  cbn [ovs_scan]. pose proof (split_fields_free dot line) as Hfree.
  destruct (split dot line) as [|f0 [|f1 fields]]; cbn -[String.eqb];
    try done.
  - by destruct (String.eqb f0 "b").
  - destruct (String.eqb f0 "b"); cbn -[String.eqb]; [|done].
    destruct (String.eqb_spec f1 _id) as [<-|_]; [|done].
    intros _. apply Hfree. set_solver.
Qed.

Section Tokens.
Context `{Imports}.

(** X1. On a parseable listing the kernel-bridge query answers [True]
    exactly when one of the listed names is the token [b.<id>.<sequence>]
    of the id, with no dot inside the id or the sequence; it issues the
    listing command and nothing else. *)
Theorem kernel_existing_bridges_token (run : runner) _id log output
    bridges names :
  run log (Command (IP_BIN +:+ " -j link show type bridge") false)
    = inr output →
  json_loads output = inr bridges →
  parseable bridges names →
  ∃ found,
    existing_bridges (get_net_client false run) _id log
    = (log ++ [Command (IP_BIN +:+ " -j link show type bridge") false],
       inr found)
    ∧ (found = true
       ↔ ∃ sequence, token _id sequence ∈ names
                     ∧ dot_free _id ∧ dot_free sequence).
Proof.
  intros Hrun Hloads (items & -> & Hitems).
  destruct (linux_scan_collides _id items names Hitems)
    as (found & Hscan & Hfound).
  exists found. split.
  - cbn -[String.append]. unfold mbind at 1 2, M_bind, bind, lift.
    rewrite call_log, Hrun, Hloads. cbn. by rewrite Hscan.
  - rewrite Hfound. split.
    + intros (name & Hin & (sequence & -> & Hfree)%collides_token).
      by exists sequence.
    + intros (sequence & Hin & Hfree). exists (token _id sequence).
      split; [done|]. apply collides_token. by exists sequence.
Qed.

(** X2. Neither query ever answers [True] for an id that contains a dot,
    whatever the listing holds. *)
Theorem dotted_id_never_found (use_ovs : bool) (run : runner) _id log :
  ¬ dot_free _id →
  (existing_bridges (get_net_client use_ovs run) _id log).2 ≠ inr true.
Proof.
  intros Hdot Htrue. apply Hdot. revert Htrue.
  destruct use_ovs; cbn -[String.append String.eqb];
    unfold mbind, M_bind, bind, lift; rewrite call_log;
    destruct (run log _) as [e|output]; try done.
  - destruct (negb (String.eqb output "")); [|done].
    cbn [snd]. apply ovs_scan_true_free.
  - cbn [snd]. destruct (json_loads output) as [e|bridges]; [done|].
    cbn [snd]. unfold mbind, result_bind.
    destruct (iter bridges) as [e|items]; [done|].
    apply linux_scan_true_free.
Qed.

End Tokens.

(** ** The virtual-switch listing, line by line *)

(** One step of the loop: a hit ends it with [True], a trap with
    [IndexError], any other line is skipped. *)
Lemma ovs_scan_line _id line rest :
  (ovs_hit _id line ∧ ovs_scan _id (line :: rest) = inr true)
  ∨ (ovs_trap line ∧ ovs_scan _id (line :: rest) = inl IndexError)
  ∨ (¬ ovs_hit _id line ∧ ¬ ovs_trap line
     ∧ ovs_scan _id (line :: rest) = ovs_scan _id rest).
Proof.
  unfold ovs_hit, ovs_trap. cbn [ovs_scan].
  pose proof (split_nonempty dot line) as Hne.
  destruct (split dot line) as [|f0 [|f1 fields]]; [done|..];
    cbn -[String.eqb].
  - destruct (String.eqb_spec f0 "b") as [->|Hf0]; cbn.
    + right. by left.
    + right. right. split; [|split; [|done]].
      * intros [fields Heq]. discriminate Heq.
      * intros Heq. congruence.
  - destruct (String.eqb_spec f0 "b") as [->|Hf0]; cbn -[String.eqb].
    + destruct (String.eqb_spec f1 _id) as [->|Hf1].
      * left. split; [by exists fields|done].
      * right. right. split; [|split; [|done]].
        -- intros [fields' Heq]. congruence.
        -- intros Heq. discriminate Heq.
    + right. right. split; [|split; [|done]].
      * intros [fields' Heq]. congruence.
      * intros Heq. discriminate Heq.
Qed.

Lemma ovs_hit_not_trap _id line : ovs_hit _id line → ¬ ovs_trap line.
Proof. intros [fields Hhit] Htrap. congruence. Qed.

Lemma ovs_scan_true _id lines :
  ovs_scan _id lines = inr true
  ↔ ∃ pre line post, lines = pre ++ line :: post ∧ ovs_hit _id line
                     ∧ Forall (λ l, ¬ ovs_trap l) pre.
Proof.
  induction lines as [|line rest IH].
  - split; [done|]. intros (pre & l & post & Heq & _). by destruct pre.
  - destruct (ovs_scan_line _id line rest)
      as [[Hhit ->]|[[Htrap ->]|(Hhit & Htrap & ->)]].
    + split; [|done]. intros _. by exists [], line, rest.
    + split; [done|]. intros (pre & l & post & Heq & Hl & Hpre).
      destruct pre as [|l' pre]; injection Heq as -> Heq.
      * by apply ovs_hit_not_trap in Hl.
      * by apply Forall_cons in Hpre as [? _].
    + rewrite IH. split.
      * intros (pre & l & post & -> & Hl & Hpre).
        exists (line :: pre), l, post. split; [done|]. split; [done|].
        by apply Forall_cons.
      * intros (pre & l & post & Heq & Hl & Hpre).
        destruct pre as [|l' pre]; injection Heq as -> Heq; [done|].
        exists pre, l, post. by apply Forall_cons in Hpre as [_ ?].
Qed.

Lemma ovs_scan_index_error _id lines :
  ovs_scan _id lines = inl IndexError
  ↔ ∃ pre line post, lines = pre ++ line :: post ∧ ovs_trap line
                     ∧ Forall (λ l, ¬ ovs_hit _id l) pre.
Proof.
  induction lines as [|line rest IH].
  - split; [done|]. intros (pre & l & post & Heq & _). by destruct pre.
  - destruct (ovs_scan_line _id line rest)
      as [[Hhit ->]|[[Htrap ->]|(Hhit & Htrap & ->)]].
    + split; [done|]. intros (pre & l & post & Heq & Hl & Hpre).
      destruct pre as [|l' pre]; injection Heq as -> Heq.
      * by apply ovs_hit_not_trap in Hhit.
      * by apply Forall_cons in Hpre as [? _].
    + split; [|done]. intros _. by exists [], line, rest.
    + rewrite IH. split.
      * intros (pre & l & post & -> & Hl & Hpre).
        exists (line :: pre), l, post. split; [done|]. split; [done|].
        by apply Forall_cons.
      * intros (pre & l & post & Heq & Hl & Hpre).
        destruct pre as [|l' pre]; injection Heq as -> Heq; [done|].
        exists pre, l, post. by apply Forall_cons in Hpre as [_ ?].
Qed.

Lemma ovs_scan_false _id lines :
  ovs_scan _id lines = inr false
  ↔ Forall (λ l, ¬ ovs_hit _id l ∧ ¬ ovs_trap l) lines.
Proof.
  induction lines as [|line rest IH]; [done|].
  destruct (ovs_scan_line _id line rest)
    as [[Hhit ->]|[[Htrap ->]|(Hhit & Htrap & ->)]].
  - split; [done|]. by intros [[? _] _]%Forall_cons.
  - split; [done|]. by intros [[_ ?] _]%Forall_cons.
  - rewrite IH. split; [by intros; apply Forall_cons|].
    by intros [_ ?]%Forall_cons.
Qed.

Lemma ovs_scan_outcomes _id lines :
  ovs_scan _id lines = inr true ∨ ovs_scan _id lines = inr false
  ∨ ovs_scan _id lines = inl IndexError.
Proof.
  induction lines as [|line rest IH]; [by right; left|].
  destruct (ovs_scan_line _id line rest)
    as [[_ ->]|[[_ ->]|(_ & _ & ->)]]; auto.
Qed.

Section OvsListing.
Context `{Imports}.

(** The guard on an empty listing changes nothing: the query is the loop
    over the lines of the output. *)
Lemma ovs_existing_bridges_scan (run : runner) _id log output :
  run log (Command (OVS_BIN +:+ " list-br") false) = inr output →
  existing_bridges (get_net_client true run) _id log
  = (log ++ [Command (OVS_BIN +:+ " list-br") false],
     ovs_scan _id (split newline output)).
Proof.
  intros Hrun. cbn -[String.append String.eqb].
  unfold mbind, M_bind, bind, lift. rewrite call_log, Hrun.
  by destruct (String.eqb_spec output "") as [->|_].
Qed.

(** X3. What the virtual-switch query answers is decided by the first line
    that is a hit (first two fields [b] and the id, any number of further
    fields) or a trap (a line without a dot reading [b]): [True] when a hit
    comes before every trap, [IndexError] when a trap comes before every
    hit, [False] when the listing has neither. It raises nothing else and
    issues the listing command alone. *)
Theorem ovs_existing_bridges_decided (run : runner) _id log output :
  run log (Command (OVS_BIN +:+ " list-br") false) = inr output →
  let lines := split newline output in
  ∃ answer,
    existing_bridges (get_net_client true run) _id log
    = (log ++ [Command (OVS_BIN +:+ " list-br") false], answer)
    ∧ (answer = inr true
       ↔ ∃ pre line post, lines = pre ++ line :: post ∧ ovs_hit _id line
                          ∧ Forall (λ l, ¬ ovs_trap l) pre)
    ∧ (answer = inl IndexError
       ↔ ∃ pre line post, lines = pre ++ line :: post ∧ ovs_trap line
                          ∧ Forall (λ l, ¬ ovs_hit _id l) pre)
    ∧ (answer = inr false
       ↔ Forall (λ l, ¬ ovs_hit _id l ∧ ¬ ovs_trap l) lines)
    ∧ (answer = inr true ∨ answer = inr false ∨ answer = inl IndexError).
Proof.
  intros Hrun lines. exists (ovs_scan _id lines).
  split; [by apply ovs_existing_bridges_scan|].
  split; [apply ovs_scan_true|]. split; [apply ovs_scan_index_error|].
  split; [apply ovs_scan_false|apply ovs_scan_outcomes].
Qed.

End OvsListing.

(** ** The kernel-bridge listing, element by element *)

(** When every name has three fields the two loops give the same answer. *)
Lemma scans_agree _id items names :
  Forall2 ifname_of items names →
  Forall (λ name, List.length (split dot name) = 3) names →
  linux_scan _id items = ovs_scan _id names.
Proof.
  induction 1 as [|bridge name items names (members & -> & Hname) _ IH];
    intros Hthree; [done|].
  apply Forall_cons in Hthree as [Hlen Hthree].
  cbn [linux_scan ovs_scan getitem]. rewrite Hname.
  cbn [mbind result_bind split_dots]. rewrite Hlen, (IH Hthree).
  reflexivity.
Qed.

(** The loop skips readable elements that do not collide. *)
Lemma linux_scan_skip _id items names rest :
  Forall2 ifname_of items names →
  Forall (λ name, ¬ collides _id name) names →
  linux_scan _id (items ++ rest) = linux_scan _id rest.
Proof.
  induction 1 as [|bridge name items names (members & -> & Hname) _ IH];
    intros Hnone; [done|].
  apply Forall_cons in Hnone as [Hno Hnone].
  change (linux_scan _id (JDict members :: items ++ rest)
          = linux_scan _id rest).
  cbn [linux_scan getitem]. rewrite Hname.
  cbn [mbind result_bind split_dots]. unfold collides in Hno.
  destruct (split dot name) as [|f0 [|f1 [|f2 [|f3 fields]]]];
    cbn -[String.eqb]; try by apply IH.
  destruct (String.eqb_spec f0 "b") as [->|_]; cbn -[String.eqb];
    [|by apply IH].
  destruct (String.eqb_spec f1 _id) as [->|_]; [|by apply IH].
  destruct Hno. by exists f2.
Qed.

Lemma linux_scan_unreadable _id bridge e rest :
  unreadable bridge e → linux_scan _id (bridge :: rest) = inl e.
Proof.
  intros [members Hnone|members name Hname Hstr|b Hobj]; cbn [linux_scan getitem].
  - by rewrite Hnone.
  - rewrite Hname. cbn [mbind result_bind].
    destruct name as [| | | |s| |]; try done. by destruct (Hstr s).
  - destruct b as [| | | | | |members]; try done. by destruct (Hobj members).
Qed.

Section KernelListing.
Context `{Imports}.

Lemma kernel_existing_bridges_scan (run : runner) _id log output bridges :
  run log (Command (IP_BIN +:+ " -j link show type bridge") false)
    = inr output →
  json_loads output = inr bridges →
  existing_bridges (get_net_client false run) _id log
  = (log ++ [Command (IP_BIN +:+ " -j link show type bridge") false],
     iter bridges ≫= linux_scan _id).
Proof.
  intros Hrun Hloads. cbn -[String.append].
  unfold mbind at 1 2, M_bind, bind, lift. by rewrite call_log, Hrun, Hloads.
Qed.

(** X4. On the same bridges the two backends answer alike when every name
    has exactly three dot-separated fields: the kernel-bridge query on a
    parseable listing of the names and the virtual-switch query on the names
    one per line (an empty output for no bridge at all) return the same
    boolean. *)
Theorem backends_agree_on_three_fields (run : runner) _id log
    listing bridges output names :
  run log (Command (IP_BIN +:+ " -j link show type bridge") false)
    = inr listing →
  json_loads listing = inr bridges →
  parseable bridges names →
  run log (Command (OVS_BIN +:+ " list-br") false) = inr output →
  (output = "" ∧ names = []) ∨ split newline output = names →
  Forall (λ name, List.length (split dot name) = 3) names →
  ∃ found,
    (existing_bridges (get_net_client false run) _id log).2 = inr found
    ∧ (existing_bridges (get_net_client true run) _id log).2 = inr found.
Proof.
  intros Hkernel Hloads (items & -> & Hitems) Hovs Hlines Hthree.
  rewrite (kernel_existing_bridges_scan run _id log listing _ Hkernel Hloads).
  rewrite (ovs_existing_bridges_scan run _id log output Hovs).
  cbn [snd iter mbind result_bind].
  destruct (linux_scan_collides _id items names Hitems)
    as (found & Hscan & _).
  exists found. split; [done|].
  destruct Hlines as [[-> ->] | ->].
  - apply Forall2_nil_inv_r in Hitems as ->. cbn in Hscan |- *. congruence.
  - by rewrite <- (scans_agree _id items names Hitems Hthree).
Qed.

(** X5. The kernel-bridge query raises at the first element of the listing
    it cannot read, unless an earlier name collides: [KeyError] for an
    object without [ifname], [AttributeError] for an [ifname] that is not a
    string, [TypeError] for an element that is not an object. *)
Theorem kernel_existing_bridges_unreadable (run : runner) _id log output
    items names bridge e rest :
  run log (Command (IP_BIN +:+ " -j link show type bridge") false)
    = inr output →
  json_loads output = inr (JList (items ++ bridge :: rest)) →
  Forall2 ifname_of items names →
  Forall (λ name, ¬ collides _id name) names →
  unreadable bridge e →
  existing_bridges (get_net_client false run) _id log
  = (log ++ [Command (IP_BIN +:+ " -j link show type bridge") false], inl e).
Proof.
  intros Hrun Hloads Hitems Hnone Hbad.
  rewrite (kernel_existing_bridges_scan run _id log output _ Hrun Hloads).
  cbn [iter mbind result_bind].
  by rewrite (linux_scan_skip _id items names _ Hitems Hnone),
    (linux_scan_unreadable _id bridge e rest Hbad).
Qed.

(** X6. When the output decodes to something that is not a list, the
    kernel-bridge query raises [TypeError], except for the empty string and
    the empty object, for which it answers [False]. *)
Theorem kernel_existing_bridges_not_a_list (run : runner) _id log output
    bridges :
  run log (Command (IP_BIN +:+ " -j link show type bridge") false)
    = inr output →
  json_loads output = inr bridges →
  (∀ items, bridges ≠ JList items) →
  (bridges = JStr "" ∨ bridges = JDict ∅ →
   (existing_bridges (get_net_client false run) _id log).2 = inr false)
  ∧ (bridges ≠ JStr "" → bridges ≠ JDict ∅ →
     (existing_bridges (get_net_client false run) _id log).2 = inl TypeError).
Proof.
  intros Hrun Hloads Hlist.
  rewrite (kernel_existing_bridges_scan run _id log output _ Hrun Hloads).
  cbn [snd]. split.
  - by intros [->| ->].
  - intros Hstr Hdict.
    destruct bridges as [| | | |s|items|members];
      cbn [iter mbind result_bind]; try done.
    + by destruct s.
    + by destruct (Hlist items).
    + destruct (map_to_list members) as [|[key item] pairs] eqn:Hpairs; [|done].
      by apply map_to_list_empty_iff in Hpairs as ->.
Qed.

End KernelListing.

(** ** All methods at once *)

Lemma surfaces_ret {A} (run : runner) (a : A) : surfaces run (mret a).
Proof. intros log. exists []. split; [by rewrite app_nil_r|done]. Qed.

Lemma surfaces_lift {A} (run : runner) (x : result A) : surfaces run (lift x).
Proof. intros log. exists []. split; [by rewrite app_nil_r|done]. Qed.

Lemma surfaces_call (run : runner) args shell :
  surfaces run (call run args shell).
Proof.
  intros log. exists [Command args shell]. split; [done|].
  intros [|k] c e Hk Hrun; [|done].
  injection Hk as <-. cbn in Hrun. rewrite app_nil_r in Hrun.
  by rewrite call_log.
Qed.

Lemma surfaces_bind {A B} (run : runner) (m : M A) (k : A → M B) :
  surfaces run m → (∀ a, surfaces run (k a)) → surfaces run (m ≫= k).
Proof.
  intros Hm Hk log. destruct (Hm log) as (cmds & Hlog & Hraise).
  unfold mbind, M_bind, bind.
  destruct (m log) as [log' [e|a]] eqn:Hrun; cbn [fst snd] in Hlog, Hraise;
    subst log'.
  - exists cmds. split; [done|]. intros i c e' Hi Hc.
    by destruct (Hraise i c e' Hi Hc) as [[= ->] ?].
  - destruct (Hk a (log ++ cmds)) as (cmds' & Hlog' & Hraise').
    exists (cmds ++ cmds'). split; [by rewrite Hlog', app_assoc|].
    intros i c e Hi Hc. destruct (decide (i < List.length cmds)) as [Hlt|Hge].
    + rewrite lookup_app_l in Hi by done.
      rewrite take_app_le in Hc by lia.
      by destruct (Hraise i c e Hi Hc).
    + rewrite lookup_app_r in Hi by lia.
      rewrite take_app_ge, app_assoc in Hc by lia.
      destruct (Hraise' _ c e Hi Hc) as [Hout Hlast].
      split; [done|]. rewrite length_app. lia.
Qed.

Lemma shell_free_ret {A} (a : A) : shell_free (mret a : M A).
Proof. intros log. exists []. split; [by rewrite app_nil_r|done]. Qed.

Lemma shell_free_lift {A} (x : result A) : shell_free (lift x).
Proof. intros log. exists []. split; [by rewrite app_nil_r|done]. Qed.

Lemma shell_free_call (run : runner) args :
  shell_free (call run args false).
Proof.
  intros log. exists [Command args false]. split; [done|].
  by apply Forall_singleton.
Qed.

Lemma shell_free_bind {A B} (m : M A) (k : A → M B) :
  shell_free m → (∀ a, shell_free (k a)) → shell_free (m ≫= k).
Proof.
  intros Hm Hk log. destruct (Hm log) as (cmds & Hlog & Hplain).
  unfold mbind, M_bind, bind.
  destruct (m log) as [log' [e|a]] eqn:Hrun; cbn [fst] in Hlog; subst log'.
  - exists cmds. by split.
  - destruct (Hk a (log ++ cmds)) as (cmds' & Hlog' & Hplain').
    exists (cmds ++ cmds'). split; [by rewrite Hlog', app_assoc|].
    by apply Forall_app.
Qed.

Ltac method_body lemma_bind lemma_call lemma_ret lemma_lift :=
  repeat first
    [ apply lemma_call
    | apply lemma_ret
    | apply lemma_lift
    | apply lemma_bind; [|intros ?]
    | match goal with
      | |- context [match ?x with Some _ => _ | None => _ end] => destruct x
      | |- context [if ?b then _ else _] => destruct b
      end ].

Section AllMethods.
Context `{Imports}.

(** X7. No method swallows an exception of [run]. Whatever the method and
    the backend, the log only grows, and when a call to [run] raised, that
    call is the last one the method made and its exception is what the
    method raises. *)
Theorem run_errors_surface (use_ovs : bool) (run : runner) inv log :
  ∃ cmds,
    (invoke (get_net_client use_ovs run) inv log).1 = log ++ cmds
    ∧ ∀ k c e,
        cmds !! k = Some c →
        run (log ++ take k cmds) c = inl e →
        (invoke (get_net_client use_ovs run) inv log).2 = inl e
        ∧ S k = List.length cmds.
Proof.
  revert log. change (surfaces run (invoke (get_net_client use_ovs run) inv)).
  destruct use_ovs, inv; cbn -[String.append String.eqb pretty];
    unfold returns_none;
    method_body (@surfaces_bind) surfaces_call (@surfaces_ret) (@surfaces_lift).
Qed.

(** X8. Only [device_flush] asks for shell interpretation: every command
    any other method issues, on either backend, is passed with the shell
    flag off. *)
Theorem shell_only_for_flush (use_ovs : bool) (run : runner) inv log :
  (∀ device, inv ≠ DeviceFlush device) →
  ∃ cmds,
    (invoke (get_net_client use_ovs run) inv log).1 = log ++ cmds
    ∧ Forall (λ c, cmd_shell c = false) cmds.
Proof.
  intros Hflush. revert log.
  change (shell_free (invoke (get_net_client use_ovs run) inv)).
  destruct use_ovs, inv; try (by destruct (Hflush device));
    cbn -[String.append String.eqb pretty]; unfold returns_none;
    method_body (@shell_free_bind) shell_free_call (@shell_free_ret)
                (@shell_free_lift).
Qed.

End AllMethods.

(** X9. The kernel-bridge client never uses the virtual-switch binary and
    the virtual-switch client never decodes JSON: replacing [OVS_BIN]
    leaves every method of the first unchanged, replacing [json.loads]
    every method of the second. *)
Theorem unused_imports (imports : Imports) (run : runner) path loads :
  @get_net_client (with_ovs_bin imports path) false run
  = @get_net_client imports false run
  ∧ @get_net_client (with_json_loads imports loads) true run
    = @get_net_client imports true run.
Proof. split; reflexivity. Qed.

(** ** The ucarp configuration files *)

Lemma ucarp_conf_text :
  ∃ tail, ∀ node,
    Ucarp.generateUcarpConf node
    = inr (Ucarp.unlines ["#!/bin/sh"; "# Location of UCARP executable"]
             +:+ "UCARP_EXEC=" +:+ Ucarp.ucarp_bin_of node
             +:+ String newline tail).
Proof.
  eexists. intros node. unfold Ucarp.generateUcarpConf.
  generalize (Ucarp.ucarp_bin_of node). intros ucarp_bin.
  lazy. reflexivity.
Qed.

Lemma ucarp_boot_text :
  ∃ text, ∀ node, Ucarp.generateUcarpBoot node = inr text.
Proof. eexists. intros node. lazy. reflexivity. Qed.

(** X10. [generate_config] returns a text for each of the four file names
    of [configs] and raises [ValueError] for every other name; the two [%]
    substitutions never fail. *)
Theorem ucarp_known_files (node : Ucarp.Node) (filename : string) :
  (filename ∈ Ucarp.configs →
   ∃ text, Ucarp.generate_config node filename = inr text)
  ∧ (filename ∉ Ucarp.configs →
     Ucarp.generate_config node filename = inl Ucarp.ValueError).
Proof.
  destruct ucarp_conf_text as [tail Hconf].
  destruct ucarp_boot_text as [boot Hboot].
  unfold Ucarp.generate_config. split.
  - intros Hin. unfold Ucarp.configs in Hin.
    repeat (apply elem_of_cons in Hin as [->|Hin]);
      [| | | |by apply elem_of_nil in Hin].
    + rewrite String.eqb_refl, Hconf. by eexists.
    + cbn. by eexists.
    + cbn. by eexists.
    + cbn -[Ucarp.generateUcarpBoot]. rewrite Hboot. by eexists.
  - intros Hout.
    destruct (String.eqb_spec filename (Ucarp.config 0)) as [->|_];
      [destruct Hout; set_solver|].
    destruct (String.eqb_spec filename (Ucarp.config 1)) as [->|_];
      [destruct Hout; set_solver|].
    destruct (String.eqb_spec filename (Ucarp.config 2)) as [->|_];
      [destruct Hout; set_solver|].
    destruct (String.eqb_spec filename (Ucarp.config 3)) as [->|_];
      [destruct Hout; set_solver|].
    reflexivity.
Qed.

(** X11. Only [default.sh] depends on the node: for every other file name
    [generate_config] gives the same result on any two nodes, whatever
    their session configuration holds. *)
Theorem ucarp_node_only_in_default (node node' : Ucarp.Node) filename :
  filename ≠ Ucarp.UCARP_ETC +:+ "/default.sh" →
  Ucarp.generate_config node filename = Ucarp.generate_config node' filename.
Proof.
  intros Hname. destruct ucarp_boot_text as [boot Hboot].
  unfold Ucarp.generate_config.
  destruct (String.eqb_spec filename (Ucarp.config 0)) as [->|_]; [done|].
  by rewrite !Hboot.
Qed.

(** X12. In [default.sh] the line [UCARP_EXEC=] names the session's
    [ucarp_bin] when the configuration has the key, and [/usr/sbin/ucarp]
    when it has not; nothing else in the file depends on the node, and the
    value is inserted as it is. *)
Theorem ucarp_exec_line :
  ∃ tail, ∀ node,
    let ucarp_bin :=
      default "/usr/sbin/ucarp"
        (Ucarp.cfg (Ucarp.session node) !! "ucarp_bin") in
    Ucarp.generate_config node (Ucarp.UCARP_ETC +:+ "/default.sh")
    = inr (Ucarp.unlines ["#!/bin/sh"; "# Location of UCARP executable"]
             +:+ "UCARP_EXEC=" +:+ ucarp_bin +:+ String newline tail).
Proof.
  destruct ucarp_conf_text as [tail Hconf]. exists tail. intros node.
  unfold Ucarp.generate_config.
  change (Ucarp.config 0) with (Ucarp.UCARP_ETC +:+ "/default.sh").
  rewrite String.eqb_refl, Hconf. unfold Ucarp.ucarp_bin_of.
  by destruct (Ucarp.cfg (Ucarp.session node) !! "ucarp_bin").
Qed.

(** ** One call per method *)

Lemma silent_ret {A} (a : A) : silent (mret a : M A).
Proof. by intros log. Qed.

Lemma silent_lift {A} (x : result A) : silent (lift x).
Proof. by intros log. Qed.

Lemma silent_bind {A B} (m : M A) (k : A → M B) :
  silent m → (∀ a, silent (k a)) → silent (m ≫= k).
Proof.
  intros Hm Hk log. specialize (Hm log). unfold mbind, M_bind, bind.
  destruct (m log) as [log' [e|a]]; cbn [fst] in Hm; subst log'; [done|].
  apply Hk.
Qed.

Lemma calls_once_call (run : runner) args shell :
  calls_once (call run args shell).
Proof. intros log. by exists (Command args shell). Qed.

Lemma calls_once_bind {A B} (m : M A) (k : A → M B) :
  calls_once m → (∀ a, silent (k a)) → calls_once (m ≫= k).
Proof.
  intros Hm Hk log. destruct (Hm log) as [c Hc]. exists c.
  unfold mbind, M_bind, bind.
  destruct (m log) as [log' [e|a]]; cbn [fst] in Hc; subst log'; [done|].
  apply Hk.
Qed.

Ltac silent_body :=
  repeat first
    [ apply @silent_ret
    | apply @silent_lift
    | apply @silent_bind; [|intros ?]
    | match goal with
      | |- context [if ?b then _ else _] => destruct b
      end ].

Section OneCall.
Context `{Imports}.

(** X13. Apart from [create_bridge], [delete_bridge] and
    [create_interface], every method calls [run] exactly once, on either
    backend and whatever [run] answers: the queries never issue a second
    command, also when parsing the listing fails. *)
Theorem one_call_per_method (use_ovs : bool) (run : runner) inv log :
  (∀ name, inv ≠ BridgeCreate name) →
  (∀ name, inv ≠ BridgeDelete name) →
  (∀ bridge_name interface_name,
     inv ≠ InterfaceCreate bridge_name interface_name) →
  ∃ c, (invoke (get_net_client use_ovs run) inv log).1 = log ++ [c].
Proof.
  intros Hcreate Hdelete Hattach. revert log.
  change (calls_once (invoke (get_net_client use_ovs run) inv)).
  destruct use_ovs, inv;
    try (by destruct (Hcreate name));
    try (by destruct (Hdelete name));
    try (by destruct (Hattach bridge_name interface_name));
    cbn -[String.append String.eqb pretty]; unfold returns_none;
    repeat match goal with
           | |- context [match ?x with Some _ => _ | None => _ end] =>
               destruct x
           end;
    repeat (apply @calls_once_bind; [|intros ?; silent_body]);
    apply calls_once_call.
Qed.

End OneCall.

(** ** The further properties on concrete inputs *)

Lemma three_field_listing_parseable :
  parseable three_field_listing ["b.5.0"; "b.7.1"].
Proof.
  eexists. split; [reflexivity|].
  repeat constructor; eexists; (split; [reflexivity|]); by vm_compute.
Defined.

Lemma kernel_existing_bridges_token_witness :
  ∃ found,
    existing_bridges (@get_net_client sample_imports false run_listings) "5" []
    = ([ Command "/sbin/ip -j link show type bridge" false ], inr found)
    ∧ (found = true
       ↔ ∃ sequence, token "5" sequence ∈ ["docker0"; "b.5.0"]
                     ∧ dot_free "5" ∧ dot_free sequence).
Proof.
  apply (@kernel_existing_bridges_token sample_imports run_listings "5" []
           sample_text sample_listing ["docker0"; "b.5.0"]);
    [reflexivity|reflexivity|exact sample_listing_parseable].
Defined.

Lemma dotted_id_never_found_witness :
  (existing_bridges (@get_net_client sample_imports true
                       (run_answering "b.5.1.0")) "5.1" []).2 ≠ inr true.
Proof.
  apply (@dotted_id_never_found sample_imports true
           (run_answering "b.5.1.0") "5.1" []).
  intros Hfree. apply Hfree. vm_compute. right. left.
Defined.

Lemma ovs_existing_bridges_decided_witness :
  ∃ answer,
    existing_bridges (@get_net_client sample_imports true
                        (run_answering three_field_lines)) "7" []
    = ([ Command "/usr/bin/ovs-vsctl list-br" false ], answer)
    ∧ (answer = inr true
       ↔ ∃ pre line post, ["b.5.0"; "b.7.1"] = pre ++ line :: post
                          ∧ ovs_hit "7" line
                          ∧ Forall (λ l, ¬ ovs_trap l) pre)
    ∧ (answer = inl IndexError
       ↔ ∃ pre line post, ["b.5.0"; "b.7.1"] = pre ++ line :: post
                          ∧ ovs_trap line
                          ∧ Forall (λ l, ¬ ovs_hit "7" l) pre)
    ∧ (answer = inr false
       ↔ Forall (λ l, ¬ ovs_hit "7" l ∧ ¬ ovs_trap l) ["b.5.0"; "b.7.1"])
    ∧ (answer = inr true ∨ answer = inr false ∨ answer = inl IndexError).
Proof.
  apply (@ovs_existing_bridges_decided sample_imports
           (run_answering three_field_lines) "7" [] three_field_lines).
  reflexivity.
Defined.

Lemma backends_agree_on_three_fields_witness :
  ∃ found,
    (existing_bridges
       (@get_net_client (imports_decoding three_field_listing) false
          (run_answering three_field_lines)) "7" []).2 = inr found
    ∧ (existing_bridges
         (@get_net_client (imports_decoding three_field_listing) true
            (run_answering three_field_lines)) "7" []).2 = inr found.
Proof.
  apply (@backends_agree_on_three_fields (imports_decoding three_field_listing)
           (run_answering three_field_lines) "7" []
           three_field_lines three_field_listing three_field_lines
           ["b.5.0"; "b.7.1"]);
    [reflexivity|reflexivity|exact three_field_listing_parseable
    |reflexivity|by right|by repeat constructor].
Defined.

Lemma kernel_existing_bridges_unreadable_witness :
  existing_bridges
    (@get_net_client (imports_decoding listing_without_ifname) false run_ok)
    "5" []
  = ([ Command "/sbin/ip -j link show type bridge" false ],
     inl (KeyError "ifname")).
Proof.
  apply (@kernel_existing_bridges_unreadable
           (imports_decoding listing_without_ifname) run_ok "5" [] ""
           [ JDict {[ "ifname" := JStr "docker0" ]} ] ["docker0"]
           (JDict {[ "mtu" := JInt 1500 ]}) (KeyError "ifname") []).
  - reflexivity.
  - reflexivity.
  - repeat constructor. eexists. split; [reflexivity|by vm_compute].
  - repeat constructor. intros [sequence Hsplit]. discriminate Hsplit.
  - apply no_ifname. by vm_compute.
Defined.

Lemma kernel_existing_bridges_not_a_list_witness :
  (existing_bridges (@get_net_client (imports_decoding JNull) false run_ok)
     "5" []).2 = inl TypeError.
Proof.
  apply (proj2 (@kernel_existing_bridges_not_a_list (imports_decoding JNull)
                  run_ok "5" [] "" JNull eq_refl eq_refl
                  (λ items, ltac:(discriminate)))); discriminate.
Defined.

Lemma shell_only_for_flush_witness :
  ∃ cmds,
    (invoke (@get_net_client sample_imports true run_ok)
       (BridgeCreate "b.5.0") []).1 = [] ++ cmds
    ∧ Forall (λ c, cmd_shell c = false) cmds.
Proof.
  apply (@shell_only_for_flush sample_imports true run_ok
           (BridgeCreate "b.5.0") []).
  intros device. discriminate.
Defined.

Lemma ucarp_known_files_witness :
  ∃ text, Ucarp.generate_config node_without_cfg "ucarpboot.sh" = inr text.
Proof.
  apply (proj1 (ucarp_known_files node_without_cfg "ucarpboot.sh")).
  do 3 right. left.
Defined.

Lemma ucarp_node_only_in_default_witness :
  Ucarp.generate_config node_without_cfg "ucarpboot.sh"
  = Ucarp.generate_config
      {| Ucarp.session := {| Ucarp.cfg := {[ "ucarp_bin" := "/opt/ucarp" ]} |} |}
      "ucarpboot.sh".
Proof.
  apply ucarp_node_only_in_default. discriminate.
Defined.

Lemma one_call_per_method_witness :
  ∃ c,
    (invoke (@get_net_client sample_imports false run_listings)
       (ExistingBridges "5") []).1 = [] ++ [c].
Proof.
  apply (@one_call_per_method sample_imports false run_listings
           (ExistingBridges "5") []); intros; discriminate.
Defined.
